(** * AmbientCG material importer: a shallow embedding of [__init__.py]
    and [build.py]

    The add-on is a sequence of host calls (Blender's [bpy], the file
    system, [urllib]) glued together by a little arithmetic and string
    manipulation.  The embedding keeps that shape: every operator is a
    function on an explicit world (scene properties, module globals, the
    files on disk, what the network will answer), written so that it can be
    evaluated on concrete worlds.

    - [Browser]: the pagination state, [on_page_change] and the
      [material.fetch_browser_materials] operator.
    - [Path], [Num]: the path and number operations of Python the add-on
      uses.
    - [Host]: files, directories, image data-blocks and materials, and the
      effects the add-on has on them.
    - [Texture]: [restore_unused_texture] and [process_texture].
    - [Graph]: the [material.fetch_and_create] operator.
    - [Unused]: the [material.mark_unused_textures] operator.
    - [Previews]: [download_preview], [get_preview_icon] and the preview
      enumeration.
    - [Registry]: [register] and [unregister].
    - [Build]: the installer, [build.py]. *)

From Stdlib Require Import ZArith Lia List String Ascii Floats.
From Stdlib Require OrderedTypeEx.
From stdpp Require Import base option gmap sets list strings pretty sorting.

Open Scope string_scope.
Open Scope list_scope.
Open Scope Z_scope.

(** ** What an operator hands back to the host *)

(** [{"FINISHED"}] and [{"CANCELLED"}]; [RAISED] stands for an exception that
    leaves [execute] uncaught. *)
Inductive status := FINISHED | CANCELLED | RAISED.

(** The levels of [self.report]. *)
Inductive level := INFO | WARNING | ERROR.

Definition report := (level * string)%type.

(** * The material browser *)

Module Browser.

Definition MATERIALS_PER_PAGE : Z := 40.

(** [class MaterialItem(bpy.types.PropertyGroup)]; a freshly added item has
    empty strings. *)
Record MaterialItem := {
  asset_id : string;
  display_name : string;
  preview_url : string
}.

Definition blank_item : MaterialItem :=
  {| asset_id := ""; display_name := ""; preview_url := "" |}.

(** One element of the JSON list [foundAssets].  A key that is absent is
    [None]; [previewImage] is the value of [previewImage["128-JPG-242424"]]
    when both levels are present. *)
Record asset := {
  assetId : option string;
  displayName : option string;
  previewImage : option string
}.

(** What [urlopen] followed by [json.loads] yields: an exception, or the
    decoded object with its (optional) [numberOfResults] and [foundAssets]. *)
Inductive response :=
| Unreachable
| Payload (numberOfResults : option Z) (foundAssets : list asset).

(** The query string of the search endpoint: [limit], [offset] and the
    optional [q] (left out when the search field is empty). *)
Record request := {
  req_limit : Z;
  req_offset : Z;
  req_query : option string
}.

(** The scene properties registered for the browser. *)
Record scene := {
  ambientcg_search_query : string;
  ambientcg_browser_offset : Z;
  ambientcg_browser_total : Z;
  ambientcg_current_page : Z;
  ambientcg_total_pages : Z;
  ambientcg_goto_page : Z;
  ambientcg_browser_materials : list MaterialItem
}.

(** The scene, the module global [_updating_page], and the outside: the
    answers the server is going to give ([inbox], one per request), the
    requests sent, the thumbnails handed to the thread pool and the reports
    shown to the user (oldest first). *)
Record world := {
  sc : scene;
  _updating_page : bool;
  inbox : list response;
  requests : list request;
  preview_jobs : list (string * string);
  reports : list report
}.

Definition with_scene (f : scene -> scene) (w : world) : world :=
  {| sc := f (sc w); _updating_page := _updating_page w; inbox := inbox w;
     requests := requests w; preview_jobs := preview_jobs w;
     reports := reports w |}.

Definition set_updating_page (b : bool) (w : world) : world :=
  {| sc := sc w; _updating_page := b; inbox := inbox w;
     requests := requests w; preview_jobs := preview_jobs w;
     reports := reports w |}.

Definition add_report (l : level) (msg : string) (w : world) : world :=
  {| sc := sc w; _updating_page := _updating_page w; inbox := inbox w;
     requests := requests w; preview_jobs := preview_jobs w;
     reports := reports w ++ [(l, msg)] |}.

Definition add_preview_jobs (js : list (string * string)) (w : world) : world :=
  {| sc := sc w; _updating_page := _updating_page w; inbox := inbox w;
     requests := requests w; preview_jobs := preview_jobs w ++ js;
     reports := reports w |}.

Definition set_browser_offset (v : Z) (s : scene) : scene :=
  {| ambientcg_search_query := ambientcg_search_query s;
     ambientcg_browser_offset := v;
     ambientcg_browser_total := ambientcg_browser_total s;
     ambientcg_current_page := ambientcg_current_page s;
     ambientcg_total_pages := ambientcg_total_pages s;
     ambientcg_goto_page := ambientcg_goto_page s;
     ambientcg_browser_materials := ambientcg_browser_materials s |}.

Definition set_browser_total (v : Z) (s : scene) : scene :=
  {| ambientcg_search_query := ambientcg_search_query s;
     ambientcg_browser_offset := ambientcg_browser_offset s;
     ambientcg_browser_total := v;
     ambientcg_current_page := ambientcg_current_page s;
     ambientcg_total_pages := ambientcg_total_pages s;
     ambientcg_goto_page := ambientcg_goto_page s;
     ambientcg_browser_materials := ambientcg_browser_materials s |}.

Definition set_current_page (v : Z) (s : scene) : scene :=
  {| ambientcg_search_query := ambientcg_search_query s;
     ambientcg_browser_offset := ambientcg_browser_offset s;
     ambientcg_browser_total := ambientcg_browser_total s;
     ambientcg_current_page := v;
     ambientcg_total_pages := ambientcg_total_pages s;
     ambientcg_goto_page := ambientcg_goto_page s;
     ambientcg_browser_materials := ambientcg_browser_materials s |}.

Definition set_total_pages (v : Z) (s : scene) : scene :=
  {| ambientcg_search_query := ambientcg_search_query s;
     ambientcg_browser_offset := ambientcg_browser_offset s;
     ambientcg_browser_total := ambientcg_browser_total s;
     ambientcg_current_page := ambientcg_current_page s;
     ambientcg_total_pages := v;
     ambientcg_goto_page := ambientcg_goto_page s;
     ambientcg_browser_materials := ambientcg_browser_materials s |}.

(** The stored value of [ambientcg_goto_page]: the property is registered
    with [min=1], so the host stores [max(1, v)]. *)
Definition store_goto_page (v : Z) (s : scene) : scene :=
  {| ambientcg_search_query := ambientcg_search_query s;
     ambientcg_browser_offset := ambientcg_browser_offset s;
     ambientcg_browser_total := ambientcg_browser_total s;
     ambientcg_current_page := ambientcg_current_page s;
     ambientcg_total_pages := ambientcg_total_pages s;
     ambientcg_goto_page := Z.max 1 v;
     ambientcg_browser_materials := ambientcg_browser_materials s |}.

Definition set_browser_materials (l : list MaterialItem) (s : scene) : scene :=
  {| ambientcg_search_query := ambientcg_search_query s;
     ambientcg_browser_offset := ambientcg_browser_offset s;
     ambientcg_browser_total := ambientcg_browser_total s;
     ambientcg_current_page := ambientcg_current_page s;
     ambientcg_total_pages := ambientcg_total_pages s;
     ambientcg_goto_page := ambientcg_goto_page s;
     ambientcg_browser_materials := l |}.

(** [context.scene.ambientcg_goto_page = v]: the property is registered with
    [update=on_page_change], so the host stores the value and then runs the
    handler.  The handler is a parameter here because [on_page_change] and
    the operator call each other; [None] is a handler that did not return. *)
Definition assign_goto_page (update : world -> option world) (v : Z)
    (w : world) : option world :=
  update (with_scene (store_goto_page v) w).

(** The loop over [data.get("foundAssets", [])].  Every round first adds a
    blank item to the collection, then fills it in; [asset["assetId"]] on an
    asset without that key raises, which leaves the blank item behind.
    Returns the collection, the thumbnails to download, and whether the loop
    raised. *)
Fixpoint add_assets (assets : list asset) (items : list MaterialItem)
    (preview_downloads : list (string * string))
    : list MaterialItem * list (string * string) * bool :=
  match assets with
  | [] => (items, preview_downloads, false)
  | a :: rest =>
    match assetId a with
    | None => (items ++ [blank_item], preview_downloads, true)
    | Some aid =>
      let url := default "" (previewImage a) in
      let item := {| asset_id := aid;
                     display_name := default aid (displayName a);
                     preview_url := url |} in
      add_assets rest (items ++ [item])
        (if String.eqb url "" then preview_downloads
         else preview_downloads ++ [(url, aid)])
    end
  end.

(** [MATERIAL_OT_fetch_browser_materials.execute].  The error report leaves
    out the text of the exception.  Scene integers are unbounded here; the
    host's 32-bit range is not modelled. *)
Definition execute (update : world -> option world)
    (reset_to_first_page : bool) (w : world) : option (status * world) :=
  w ← (if reset_to_first_page then
         let w := with_scene (set_browser_offset 0) w in
         let w := set_updating_page true w in
         w ← assign_goto_page update 1 w;
         Some (set_updating_page false w)
       else Some w);
  let search_query := ambientcg_search_query (sc w) in
  let offset := ambientcg_browser_offset (sc w) in
  let url := {| req_limit := MATERIALS_PER_PAGE; req_offset := offset;
                req_query := if String.eqb search_query "" then None
                             else Some search_query |} in
  let answer := default Unreachable (head (inbox w)) in
  let w := {| sc := sc w; _updating_page := _updating_page w;
              inbox := tail (inbox w); requests := requests w ++ [url];
              preview_jobs := preview_jobs w; reports := reports w |} in
  match answer with
  | Unreachable =>
    Some (CANCELLED, add_report ERROR "Failed to fetch materials" w)
  | Payload numberOfResults foundAssets =>
    let w := with_scene (set_browser_total (default 0 numberOfResults)) w in
    let w := with_scene (set_browser_materials []) w in
    let '(items, preview_downloads, raised) := add_assets foundAssets [] [] in
    let w := with_scene (set_browser_materials items) w in
    if raised then
      Some (CANCELLED, add_report ERROR "Failed to fetch materials" w)
    else
      let w := add_preview_jobs preview_downloads w in
      let total := ambientcg_browser_total (sc w) in
      let current_page := offset / MATERIALS_PER_PAGE + 1 in
      let total_pages :=
        Z.max 1 ((total + MATERIALS_PER_PAGE - 1) / MATERIALS_PER_PAGE) in
      let w := with_scene (set_current_page current_page) w in
      let w := with_scene (set_total_pages total_pages) w in
      let w := set_updating_page true w in
      w ← assign_goto_page update current_page w;
      let w := set_updating_page false w in
      Some (FINISHED,
            add_report INFO ("Found " +:+ pretty total +:+ " materials") w)
  end.

(** [on_page_change], the update handler of [ambientcg_goto_page].  It calls
    the operator with its default [reset_to_first_page=False], and the
    operator assigns the page field, which runs this handler again: the
    recursion is cut by [fuel], and [None] means the fuel ran out. *)
Fixpoint on_page_change (fuel : nat) (w : world) : option world :=
  match fuel with
  | O => None
  | S fuel =>
    if _updating_page w then Some w
    else
      let w := set_updating_page true w in
      let page := ambientcg_goto_page (sc w) in
      let total_pages := ambientcg_total_pages (sc w) in
      let page :=
        if page <? 1 then 1
        else if (0 <? total_pages) && (total_pages <? page) then total_pages
        else page in
      let w := with_scene (set_browser_offset ((page - 1) * MATERIALS_PER_PAGE)) w in
      '(_, w) ← execute (on_page_change fuel) false w;
      Some (set_updating_page false w)
  end.

(** [bpy.ops.material.fetch_browser_materials(reset_to_first_page=...)]. *)
Definition fetch_browser_materials (fuel : nat) (reset_to_first_page : bool)
    (w : world) : option (status * world) :=
  execute (on_page_change fuel) reset_to_first_page w.

(** The user typing [v] into the page field. *)
Definition user_sets_page (fuel : nat) (v : Z) (w : world) : option world :=
  assign_goto_page (on_page_change fuel) v w.

(** The least number of pages of [p] entries that hold [total] entries. *)
Definition ceil_div (total p : Z) : Z := - ((- total) / p).

End Browser.

(** * Paths and numbers *)

Module Path.

(** [pathlib.Path] values are modelled by their [str()]: normalised,
    POSIX-style strings (no trailing or doubled separator; the folder
    properties of the scene are taken to hold such strings).  The string
    operations work on the characters. *)
Definition chars (s : string) : list ascii := list_ascii_of_string s.
Definition text (l : list ascii) : string := string_of_list_ascii l.

(** [a / b] on paths. *)
Definition join (dir name : string) : string := dir +:+ "/" +:+ name.

(** [s.endswith(suf)]. *)
Definition endswith (s suf : string) : bool :=
  bool_decide (chars suf `suffix_of` chars s).

(** [s.startswith(pre)]. *)
Definition startswith (s pre : string) : bool :=
  bool_decide (chars pre `prefix_of` chars s).

(** The characters before the first [c]; all of them when there is none. *)
Fixpoint take_until (c : ascii) (l : list ascii) : list ascii :=
  match l with
  | [] => []
  | x :: r => if Ascii.eqb x c then [] else x :: take_until c r
  end.

(** The text after the last [c]; the whole text when there is none. *)
Definition after_last (c : ascii) (l : list ascii) : list ascii :=
  rev (take_until c (rev l)).

(** [Path.name]: the final component. *)
Definition name (p : string) : string := text (after_last "/" (chars p)).

(** [Path.stem]: the final component without its last suffix.  With
    [i = name.rfind(".")], the suffix is [name[i:]] when [0 < i < len - 1]
    and empty otherwise. *)
Definition stem (p : string) : string :=
  let n := chars (name p) in
  let ext := after_last "." n in
  let i := (length n - length ext - 1)%nat in
  if bool_decide ("."%char ∈ n) && bool_decide (0 < i)%nat
     && bool_decide (0 < length ext)%nat
  then text (take i n)
  else text n.

(** [s.split("_")[-1]]. *)
Definition last_token (s : string) : string := text (after_last "_" (chars s)).

(** The suffix that flags a texture as unused. *)
Definition unused_suffix : string := ".unused".

(** [Path(str(p) + ".unused")]. *)
Definition unused (p : string) : string := p +:+ unused_suffix.

(** The name of a direct child of [dir] at path [p], if [p] is one. *)
Definition child_name (dir p : string) : option string :=
  let d := chars dir ++ ["/"%char] in
  let rest := drop (length d) (chars p) in
  if bool_decide (d `prefix_of` chars p) && bool_decide (rest ≠ [])
     && bool_decide ("/"%char ∉ rest)
  then Some (text rest) else None.

(** Whether [p] lies below [dir], at any depth. *)
Definition below (dir p : string) : bool :=
  let d := chars dir ++ ["/"%char] in
  bool_decide (d `prefix_of` chars p) && bool_decide (length d < length (chars p))%nat.

End Path.

Module Num.

(** Python floats are IEEE binary64 numbers: the kernel's primitive floats.
    [SpecFloat] gives each finite one as [(-1)^s * m * 2^e]. *)

(** The integer nearest to [m * 2^e], ties to the even one. *)
Definition round_half_even (m e : Z) : Z :=
  if 0 <=? e then m * 2 ^ e
  else
    let den := 2 ^ (- e) in
    let q := m / den in
    let r := m mod den in
    if den <? 2 * r then q + 1
    else if (2 * r =? den) && Z.odd q then q + 1
    else q.

(** [int(x)]: truncation towards zero; [None] for the [OverflowError] and
    [ValueError] that infinities and NaN raise. *)
Definition py_int (x : float) : option Z :=
  match Prim2SF x with
  | S754_zero _ => Some 0
  | S754_finite s m e =>
    let a := if 0 <=? e then Z.pos m * 2 ^ e else Z.pos m / 2 ^ (- e) in
    Some (if s then - a else a)
  | _ => None
  end.


(** [float(n)] for the integers the add-on converts, image sizes. *)
Definition of_int (n : Z) : float :=
  if n <? 0 then PrimFloat.opp (PrimFloat.of_uint63 (Uint63.of_Z (- n)))
  else PrimFloat.of_uint63 (Uint63.of_Z n).

(** Two decimal digits. *)
Definition two_digits (n : Z) : string :=
  if n <? 10 then "0" +:+ pretty n else pretty n.

(** [f"{x:.2f}"]: [x] rounded to hundredths, ties to even on the exact binary
    value. *)
Definition format_2f (x : float) : string :=
  match Prim2SF x with
  | S754_nan => "nan"
  | S754_infinity s => if s then "-inf" else "inf"
  | S754_zero s => if s then "-0.00" else "0.00"
  | S754_finite s m e =>
    let n := round_half_even (Z.pos m * 100) e in
    (if s then "-" else "") +:+ pretty (n / 100) +:+ "." +:+ two_digits (n mod 100)
  end.

(** [abs(x - 1.0) > 0.001]. *)
Definition differs_from_one (x : float) : bool :=
  PrimFloat.ltb 0x1.0624dd2f1a9fcp-10%float
                (PrimFloat.abs (PrimFloat.sub x 1%float)).

End Num.

(** * The host: files, image data-blocks, materials *)

Module Host.

(** The pixels of an image, kept symbolic: those of some original picture, or
    what [Image.scale] made of other pixels. *)
Inductive pixels :=
| Original (id : N)
| Resampled (src : pixels) (width height : Z).

(** An image: [Image.size] and its pixels. *)
Record image := { size : Z * Z; px : pixels }.

(** [Image.scale(width, height)]. *)
Definition scale (width height : Z) (i : image) : image :=
  {| size := (width, height); px := Resampled (px i) width height |}.

(** What a plain file holds: a PNG picture or something else. *)
Inductive data :=
| Png (i : image)
| Blob (tag : N).

(** A zip archive: its members, by name, and the member (if any) at which
    reading it fails. *)
Record archive := { members : list (string * data); damaged : option nat }.

Inductive file :=
| Plain (d : data)
| Zipped (a : archive).

(** What the add-on does to the outside, in order. *)
Inductive effect :=
| Renamed (src dst : string)
| Loaded (path : string)
| Saved (path : string)
| Unlinked (path : string)
| Downloaded (url path : string)
| Extracted (path : string)
| MadeDir (path : string).

(** Shader nodes, by [bl_idname]. *)
Inductive node_type :=
| ShaderNodeOutputMaterial
| ShaderNodeBsdfPrincipled
| ShaderNodeTexCoord
| ShaderNodeMapping
| ShaderNodeTexImage
| ShaderNodeNormalMap
| ShaderNodeDisplacement.

Global Instance node_type_eq_dec : EqDecision node_type.
Proof. solve_decision. Defined.

(** A node: its type, [location], and for an image texture the file path of
    its image, the image's colour space and the [interpolation]. *)
Record node := {
  bl_idname : node_type;
  location : Z * Z;
  node_image : option string;
  colorspace : option string;
  interpolation : option string
}.

(** A link from the output socket of one node (by index in [nodes]) to the
    input socket of another. *)
Record link := {
  from_node : nat; from_socket : string;
  to_node : nat; to_socket : string
}.

(** A material: its node tree, the scalar defaults written into the
    principled shader's inputs, and [use_backface_culling]. *)
Record material := {
  mat_name : string;
  nodes : list node;
  links : list link;
  metallic_default : option float;
  roughness_default : option float;
  use_backface_culling : bool
}.

(** The world an operator runs in: regular files and directories by path;
    the paths the process may not modify; [bpy.data.images] (the [filepath]
    of each data-block) and [bpy.data.materials]; [bpy.data.filepath]; the
    effects so far and the reports shown, oldest first. *)
Record world := {
  files : gmap string file;
  dirs : gset string;
  locked : gset string;
  images : list string;
  materials : list material;
  blend_filepath : string;
  trace : list effect;
  reports : list report
}.

(** What the add-on cannot decide: the host's path functions, what a URL
    serves, and the order in which a directory scan yields its entries. *)
Record oracle := {
  relpath : string -> string;
  abspath : string -> string;
  resolve : string -> string;
  remote : string -> option archive;
  scan_order : list string -> list string
}.

(** ** Operations that may raise *)

Inductive outcome (A : Type) :=
| Ret (a : A)
| Exc (what : string).
Global Arguments Ret {A} a.
Global Arguments Exc {A} what.

(** A computation over a state [S] that returns or raises. *)
Definition M (S A : Type) : Type := S -> outcome A * S.

Definition ret {S A} (a : A) : M S A := fun s => (Ret a, s).
Definition raise {S A} (what : string) : M S A := fun s => (Exc what, s).
Definition bind {S A B} (m : M S A) (k : A -> M S B) : M S B :=
  fun s => match m s with
           | (Ret a, s') => k a s'
           | (Exc what, s') => (Exc what, s')
           end.
Definition get {S} : M S S := fun s => (Ret s, s).
Definition modify {S} (f : S -> S) : M S unit := fun s => (Ret tt, f s).

(** [try: m except Exception: h]. *)
Definition catch {S A} (m : M S A) (h : string -> M S A) : M S A :=
  fun s => match m s with
           | (Ret a, s') => (Ret a, s')
           | (Exc what, s') => h what s'
           end.

Declare Scope host_scope.
Delimit Scope host_scope with host.
Notation "x <- m ;; k" := (bind m (fun x => k))
  (at level 100, m at next level, right associativity) : host_scope.
Notation "m ;;; k" := (bind m (fun _ => k))
  (at level 100, right associativity) : host_scope.
Open Scope host_scope.

(** ** Fields of the world *)

Definition set_files (f : gmap string file -> gmap string file) (w : world) : world :=
  {| files := f (files w); dirs := dirs w; locked := locked w;
     images := images w; materials := materials w;
     blend_filepath := blend_filepath w; trace := trace w;
     reports := reports w |}.

Definition set_dirs (f : gset string -> gset string) (w : world) : world :=
  {| files := files w; dirs := f (dirs w); locked := locked w;
     images := images w; materials := materials w;
     blend_filepath := blend_filepath w; trace := trace w;
     reports := reports w |}.

Definition set_images (f : list string -> list string) (w : world) : world :=
  {| files := files w; dirs := dirs w; locked := locked w;
     images := f (images w); materials := materials w;
     blend_filepath := blend_filepath w; trace := trace w;
     reports := reports w |}.

Definition add_material (m : material) (w : world) : world :=
  {| files := files w; dirs := dirs w; locked := locked w;
     images := images w; materials := materials w ++ [m];
     blend_filepath := blend_filepath w; trace := trace w;
     reports := reports w |}.

Definition log (e : effect) (w : world) : world :=
  {| files := files w; dirs := dirs w; locked := locked w;
     images := images w; materials := materials w;
     blend_filepath := blend_filepath w; trace := trace w ++ [e];
     reports := reports w |}.

Definition add_report (l : level) (msg : string) (w : world) : world :=
  {| files := files w; dirs := dirs w; locked := locked w;
     images := images w; materials := materials w;
     blend_filepath := blend_filepath w; trace := trace w;
     reports := reports w ++ [(l, msg)] |}.

(** ** The file system *)

(** [Path.exists()]. *)
Definition exists_ (p : string) (w : world) : bool :=
  bool_decide (is_Some (files w !! p)) || bool_decide (p ∈ dirs w).

(** [Path.rename(dst)] on a regular file, with POSIX semantics: a regular
    file at [dst] is replaced.  It raises when [src] is missing, when either
    path may not be modified, and when [dst] is a directory.  Directories are
    not moved in this model: renaming a path that is a directory raises. *)
Definition rename (src dst : string) : M world unit :=
  fun w =>
    match files w !! src with
    | Some f =>
      if bool_decide (src ∈ locked w) || bool_decide (dst ∈ locked w)
         || bool_decide (dst ∈ dirs w) || bool_decide (src ∈ dirs w)
      then (Exc "OSError", w)
      else (Ret tt, log (Renamed src dst)
                      (set_files (fun m => <[dst := f]> (delete src m)) w))
    | None => (Exc "FileNotFoundError", w)
    end.

(** [Path.unlink()]. *)
Definition unlink (p : string) : M world unit :=
  fun w =>
    match files w !! p with
    | Some _ =>
      if bool_decide (p ∈ locked w) then (Exc "PermissionError", w)
      else (Ret tt, log (Unlinked p) (set_files (delete p) w))
    | None => (Exc "FileNotFoundError", w)
    end.

(** [Path.mkdir(parents=True, exist_ok=True)]. *)
Definition mkdir (p : string) : M world unit :=
  fun w =>
    if bool_decide (is_Some (files w !! p)) then (Exc "FileExistsError", w)
    else if bool_decide (p ∈ dirs w) then (Ret tt, w)
    else (Ret tt, log (MadeDir p) (set_dirs (fun d => {[p]} ∪ d) w)).

(** The entries a scan of [dir] finds: the regular files and directories
    directly in it, by name. *)
Definition entries (dir : string) (w : world) : list string :=
  omap (Path.child_name dir) ((map_to_list (files w)).*1 ++ elements (dirs w)).

(** [os.listdir(dir)], in the order the scan happens to yield. *)
Definition listdir (o : oracle) (dir : string) : M world (list string) :=
  fun w =>
    if bool_decide (dir ∈ dirs w) then (Ret (scan_order o (entries dir w)), w)
    else (Exc "FileNotFoundError", w).

(** [urllib.request.urlretrieve(url, path)]. *)
Definition urlretrieve (o : oracle) (url path : string) : M world unit :=
  fun w =>
    match remote o url with
    | Some a =>
      if bool_decide (path ∈ locked w) || bool_decide (path ∈ dirs w)
      then (Exc "OSError", w)
      else (Ret tt, log (Downloaded url path)
                      (set_files (fun m => <[path := Zipped a]> m) w))
    | None => (Exc "URLError", w)
    end.

(** Writing archive members below [dir]. *)
Definition write_members (dir : string) (ms : list (string * data))
    (m : gmap string file) : gmap string file :=
  foldl (fun acc e => <[Path.join dir e.1 := Plain e.2]> acc) m ms.

(** [ZipFile(path).extractall(dir)]: the members are written in order; a
    damaged archive raises at its damaged member, leaving the earlier ones on
    disk.  The directory comes into being with the first member. *)
Definition extractall (path dir : string) : M world unit :=
  fun w =>
    match files w !! path with
    | Some (Zipped a) =>
      let n := default (length (members a)) (damaged a) in
      let ms := take n (members a) in
      let w' := if bool_decide (ms = []) then w
                else log (Extracted dir)
                       (set_dirs (fun d => {[dir]} ∪ d)
                          (set_files (write_members dir ms) w)) in
      match damaged a with
      | Some _ => (Exc "BadZipFile", w')
      | None => (Ret tt, w')
      end
    | Some (Plain _) => (Exc "BadZipFile", w)
    | None => (Exc "FileNotFoundError", w)
    end.

(** ** Images *)

(** Where the host looks for a file path: a path that starts with [//] is
    relative to the blend file and goes through [bpy.path.abspath]; any other
    path is taken as it is. *)
Definition locate (o : oracle) (path : string) : string :=
  if Path.startswith path "//" then abspath o path else path.

(** [bpy.data.images.load(path)]: reads the picture at [path] and appends a
    data-block; returns the data-block's index and the picture. *)
Definition images_load (o : oracle) (path : string) : M world (nat * image) :=
  fun w =>
    match files w !! locate o path with
    | Some (Plain (Png i)) =>
      (Ret (length (images w), i),
       log (Loaded path) (set_images (fun l => l ++ [path]) w))
    | _ => (Exc "RuntimeError", w)
    end.

(** [image.filepath_raw = path]. *)
Definition set_filepath_raw (h : nat) (path : string) : M world unit :=
  modify (set_images (fun l => <[h := path]> l)).

(** [image.save()] of picture [i] held by data-block [h]: writes a PNG at the
    data-block's path. *)
Definition image_save (h : nat) (i : image) : M world unit :=
  fun w =>
    match images w !! h with
    | Some path =>
      if bool_decide (path ∈ locked w) || bool_decide (path ∈ dirs w)
      then (Exc "RuntimeError", w)
      else (Ret tt, log (Saved path)
                      (set_files (fun m => <[path := Plain (Png i)]> m) w))
    | None => (Exc "ReferenceError", w)
    end.

(** [bpy.data.images.remove(image)]. *)
Definition images_remove (h : nat) : M world unit :=
  modify (set_images (fun l => delete h l)).

End Host.

(** * The add-on's file and graph code *)

Module Texture.
Import Host.

Section WithOracle.
Variable o : oracle.

(** [get_texture_path(path, use_relative)]. *)
Definition get_texture_path (path : string) (use_relative : bool)
    : M world string :=
  w <- get ;;
  ret (if use_relative && negb (String.eqb (blend_filepath w) "")
       then relpath o path else path).

(** [restore_unused_texture(file_path)]. *)
Definition restore_unused_texture (file_path : string) : M world bool :=
  let unused_path := Path.unused file_path in
  w <- get ;;
  if exists_ unused_path w then
    rename unused_path file_path ;;;
    ret true
  else ret false.

(** The file name [process_texture] derives for its output. *)
Definition output_name (source_path : string) (resize_multiplier : float)
    (material_name : string) : string :=
  let texture_type := Path.last_token (Path.stem source_path) in
  material_name +:+ "_" +:+ texture_type +:+ "_"
    +:+ Num.format_2f resize_multiplier +:+ ".png".

(** [int(size * resize_multiplier)]. *)
Definition scaled (dim : Z) (resize_multiplier : float) : M world Z :=
  match Num.py_int (PrimFloat.mul (Num.of_int dim) resize_multiplier) with
  | Some n => ret n
  | None => raise "OverflowError"
  end.

(** [MATERIAL_OT_fetch_and_create.process_texture]. *)
Definition process_texture (source_path output_folder : string)
    (resize_multiplier : float) (use_relative_paths : bool)
    (material_name : string) : M world string :=
  restore_unused_texture source_path ;;;
  let output_path :=
    Path.join output_folder
      (output_name source_path resize_multiplier material_name) in
  restore_unused_texture output_path ;;;
  w <- get ;;
  if exists_ output_path w then
    get_texture_path output_path use_relative_paths
  else
    loaded <- images_load o source_path ;;
    let temp_image := loaded.1 in
    let picture := loaded.2 in
    new_width <- scaled (size picture).1 resize_multiplier ;;
    new_height <- scaled (size picture).2 resize_multiplier ;;
    let picture :=
      if Num.differs_from_one resize_multiplier
      then scale new_width new_height picture
      else picture in
    set_filepath_raw temp_image output_path ;;;
    image_save temp_image picture ;;;
    images_remove temp_image ;;;
    get_texture_path output_path use_relative_paths.

End WithOracle.
End Texture.

Module Graph.
Import Host.

(** The add-on preference and the scene properties the operator reads. *)
Record settings := {
  cache_dir : string;
  ambientcg_material_name : string;
  ambientcg_resolution : string;
  ambientcg_use_custom_folder : bool;
  ambientcg_custom_folder : string;
  ambientcg_use_relative_paths : bool;
  ambientcg_resize_multiplier : float;
  ambientcg_interpolation : string;
  ambientcg_use_color : bool;
  ambientcg_use_metalness : bool;
  ambientcg_use_roughness : bool;
  ambientcg_use_normal : bool;
  ambientcg_use_displacement : bool;
  ambientcg_default_metallic : float;
  ambientcg_default_roughness : float;
  ambientcg_use_backface_culling : bool
}.

(** The state while the node tree is built: the world and the material. *)
Definition building : Type := world * material.

(** A world operation, run while building. *)
Definition in_world {A} (m : M world A) : M building A :=
  fun s => let r := m s.1 in (r.1, (r.2, s.2)).

Definition set_nodes (f : list node -> list node) (m : material) : material :=
  {| mat_name := mat_name m; nodes := f (nodes m); links := links m;
     metallic_default := metallic_default m;
     roughness_default := roughness_default m;
     use_backface_culling := use_backface_culling m |}.

Definition set_links (f : list link -> list link) (m : material) : material :=
  {| mat_name := mat_name m; nodes := nodes m; links := f (links m);
     metallic_default := metallic_default m;
     roughness_default := roughness_default m;
     use_backface_culling := use_backface_culling m |}.

Definition set_metallic_default (v : float) (m : material) : material :=
  {| mat_name := mat_name m; nodes := nodes m; links := links m;
     metallic_default := Some v;
     roughness_default := roughness_default m;
     use_backface_culling := use_backface_culling m |}.

Definition set_roughness_default (v : float) (m : material) : material :=
  {| mat_name := mat_name m; nodes := nodes m; links := links m;
     metallic_default := metallic_default m;
     roughness_default := Some v;
     use_backface_culling := use_backface_culling m |}.

Definition set_use_backface_culling (b : bool) (m : material) : material :=
  {| mat_name := mat_name m; nodes := nodes m; links := links m;
     metallic_default := metallic_default m;
     roughness_default := roughness_default m;
     use_backface_culling := b |}.

Definition on_material (f : material -> material) : M building unit :=
  modify (fun s => (s.1, f s.2)).

(** [nodes.new(type=t)]: the new node goes last; returns its index. *)
Definition nodes_new (t : node_type) : M building nat :=
  s <- get ;;
  on_material (set_nodes (fun l =>
    l ++ [{| bl_idname := t; location := (0, 0); node_image := None;
             colorspace := None; interpolation := None |}])) ;;;
  ret (length (nodes s.2)).

(** [node.location = loc]. *)
Definition set_location (n : nat) (loc : Z * Z) : M building unit :=
  on_material (set_nodes (alter (fun x =>
    {| bl_idname := bl_idname x; location := loc;
       node_image := node_image x; colorspace := colorspace x;
       interpolation := interpolation x |}) n)).

(** [node.image = bpy.data.images.load(path)]. *)
Definition set_image (o : oracle) (n : nat) (path : string) : M building unit :=
  in_world (images_load o path) ;;;
  on_material (set_nodes (alter (fun x =>
    {| bl_idname := bl_idname x; location := location x;
       node_image := Some path; colorspace := colorspace x;
       interpolation := interpolation x |}) n)).

(** [node.image.colorspace_settings.name = cs]. *)
Definition set_colorspace (n : nat) (cs : string) : M building unit :=
  on_material (set_nodes (alter (fun x =>
    {| bl_idname := bl_idname x; location := location x;
       node_image := node_image x; colorspace := Some cs;
       interpolation := interpolation x |}) n)).

(** [node.interpolation = i]. *)
Definition set_interpolation (n : nat) (i : string) : M building unit :=
  on_material (set_nodes (alter (fun x =>
    {| bl_idname := bl_idname x; location := location x;
       node_image := node_image x; colorspace := colorspace x;
       interpolation := Some i |}) n)).

(** [links.new(a.outputs[out], b.inputs[inp])]: an input socket holds one
    link, so a link already into it gives way. *)
Definition links_new (a : nat) (out : string) (b : nat) (inp : string)
    : M building unit :=
  on_material (set_links (fun l =>
    filter (fun k => ¬ (to_node k = b ∧ to_socket k = inp)) l
    ++ [{| from_node := a; from_socket := out;
           to_node := b; to_socket := inp |}])).

(** [for x in l: body(x)]. *)
Fixpoint for_each {S A} (l : list A) (body : A -> M S unit) : M S unit :=
  match l with
  | [] => ret tt
  | x :: rest => body x ;;; for_each rest body
  end.

Section WithOracle.
Variable o : oracle.

(** The body of the loop over [os.listdir(extract_path)]. *)
Definition place_texture (cfg : settings) (extract_path output_folder : string)
    (material_output principled mapping : nat) (file : string)
    : M building unit :=
  let source_path := Path.join extract_path file in
  let process :=
    in_world (Texture.process_texture o source_path output_folder
                (ambientcg_resize_multiplier cfg)
                (ambientcg_use_relative_paths cfg)
                (ambientcg_material_name cfg)) in
  if Path.endswith file "_Color.png" && ambientcg_use_color cfg then
    texture_path <- process ;;
    color_tex <- nodes_new ShaderNodeTexImage ;;
    set_location color_tex (-600, 600) ;;;
    set_image o color_tex texture_path ;;;
    set_colorspace color_tex "sRGB" ;;;
    set_interpolation color_tex (ambientcg_interpolation cfg) ;;;
    links_new color_tex "Color" principled "Base Color" ;;;
    links_new mapping "Vector" color_tex "Vector"
  else if Path.endswith file "_Metalness.png" && ambientcg_use_metalness cfg then
    texture_path <- process ;;
    metalness_tex <- nodes_new ShaderNodeTexImage ;;
    set_location metalness_tex (-600, 300) ;;;
    set_image o metalness_tex texture_path ;;;
    set_colorspace metalness_tex "Non-Color" ;;;
    set_interpolation metalness_tex (ambientcg_interpolation cfg) ;;;
    links_new metalness_tex "Color" principled "Metallic" ;;;
    links_new mapping "Vector" metalness_tex "Vector"
  else if Path.endswith file "_Roughness.png" && ambientcg_use_roughness cfg then
    texture_path <- process ;;
    roughness_tex <- nodes_new ShaderNodeTexImage ;;
    set_location roughness_tex (-600, 0) ;;;
    set_image o roughness_tex texture_path ;;;
    set_colorspace roughness_tex "Non-Color" ;;;
    set_interpolation roughness_tex (ambientcg_interpolation cfg) ;;;
    links_new roughness_tex "Color" principled "Roughness" ;;;
    links_new mapping "Vector" roughness_tex "Vector"
  else if Path.endswith file "_NormalGL.png" && ambientcg_use_normal cfg then
    texture_path <- process ;;
    normal_tex <- nodes_new ShaderNodeTexImage ;;
    set_location normal_tex (-600, -300) ;;;
    set_image o normal_tex texture_path ;;;
    set_colorspace normal_tex "Non-Color" ;;;
    set_interpolation normal_tex (ambientcg_interpolation cfg) ;;;
    normal_map <- nodes_new ShaderNodeNormalMap ;;
    set_location normal_map (-300, -300) ;;;
    links_new normal_tex "Color" normal_map "Color" ;;;
    links_new normal_map "Normal" principled "Normal" ;;;
    links_new mapping "Vector" normal_tex "Vector"
  else if Path.endswith file "_Displacement.png"
          && ambientcg_use_displacement cfg then
    texture_path <- process ;;
    displacement_tex <- nodes_new ShaderNodeTexImage ;;
    set_location displacement_tex (-600, -600) ;;;
    set_image o displacement_tex texture_path ;;;
    set_colorspace displacement_tex "Non-Color" ;;;
    set_interpolation displacement_tex (ambientcg_interpolation cfg) ;;;
    displacement <- nodes_new ShaderNodeDisplacement ;;
    set_location displacement (-300, -600) ;;;
    links_new displacement_tex "Color" displacement "Height" ;;;
    links_new displacement "Displacement" material_output "Displacement" ;;;
    links_new mapping "Vector" displacement_tex "Vector"
  else ret tt.

(** The first part of [execute]: the cache and output folders, and the
    download when the material is not cached.  Returns the extraction and
    output folders, or [None] after an error that was reported (the reports
    leave out the text of the exception). *)
Definition obtain (cfg : settings) : M world (option (string * string)) :=
  let material_name := ambientcg_material_name cfg in
  let resolution := ambientcg_resolution cfg in
  let url := "https://ambientcg.com/get?file=" +:+ material_name +:+ "_"
               +:+ resolution +:+ "-PNG.zip" in
  mkdir (cache_dir cfg) ;;;
  let extract_path :=
    Path.join (cache_dir cfg) (material_name +:+ "_" +:+ resolution) in
  output_folder <-
    (if ambientcg_use_custom_folder cfg
        && negb (String.eqb (ambientcg_custom_folder cfg) "")
     then mkdir (ambientcg_custom_folder cfg) ;;;
          ret (ambientcg_custom_folder cfg)
     else ret extract_path) ;;
  w <- get ;;
  if negb (exists_ extract_path w) then
    let zip_path :=
      Path.join (cache_dir cfg)
                (material_name +:+ "_" +:+ resolution +:+ ".zip") in
    downloaded <-
      catch (urlretrieve o url zip_path ;;; ret true)
            (fun _ =>
               modify (add_report ERROR "Failed to download file") ;;;
               ret false) ;;
    if negb downloaded then ret None
    else
      extracted <-
        catch (extractall zip_path extract_path ;;;
               unlink zip_path ;;;
               ret true)
              (fun _ =>
                 modify (add_report ERROR "Failed to extract zip file") ;;;
                 ret false) ;;
      if negb extracted then ret None
      else ret (Some (extract_path, output_folder))
  else
    modify (add_report INFO
              ("Using cached material: " +:+ material_name +:+ "_"
                 +:+ resolution)) ;;;
    ret (Some (extract_path, output_folder)).

(** The second part: the node tree. *)
Definition build (cfg : settings) (extract_path output_folder : string)
    : M building unit :=
  material_output <- nodes_new ShaderNodeOutputMaterial ;;
  set_location material_output (300, 0) ;;;
  principled <- nodes_new ShaderNodeBsdfPrincipled ;;
  set_location principled (0, 0) ;;;
  links_new principled "BSDF" material_output "Surface" ;;;
  tex_coord <- nodes_new ShaderNodeTexCoord ;;
  set_location tex_coord (-1000, 0) ;;;
  mapping <- nodes_new ShaderNodeMapping ;;
  set_location mapping (-800, 0) ;;;
  links_new tex_coord "UV" mapping "Vector" ;;;
  listing <- in_world (listdir o extract_path) ;;
  for_each listing
    (place_texture cfg extract_path output_folder
                   material_output principled mapping) ;;;
  (if negb (ambientcg_use_metalness cfg)
   then on_material (set_metallic_default (ambientcg_default_metallic cfg))
   else ret tt) ;;;
  (if negb (ambientcg_use_roughness cfg)
   then on_material (set_roughness_default (ambientcg_default_roughness cfg))
   else ret tt) ;;;
  (if ambientcg_use_backface_culling cfg
   then on_material (set_use_backface_culling true)
   else ret tt).

(** [bpy.data.materials.new(name)] with [use_nodes] on and the default nodes
    cleared. *)
Definition new_material (name : string) : material :=
  {| mat_name := name; nodes := []; links := [];
     metallic_default := None; roughness_default := None;
     use_backface_culling := false |}.

(** [MATERIAL_OT_fetch_and_create.execute].  The material lives in
    [bpy.data.materials] from its creation on, also when the operator
    raises. *)
Definition execute (cfg : settings) (w : world) : status * world :=
  match obtain cfg w with
  | (Exc _, w) => (RAISED, w)
  | (Ret None, w) => (CANCELLED, w)
  | (Ret (Some (extract_path, output_folder)), w) =>
    match build cfg extract_path output_folder
                (w, new_material (ambientcg_material_name cfg)) with
    | (Ret _, (w, material)) =>
      (FINISHED,
       add_report INFO
         ("Material '" +:+ ambientcg_material_name cfg
            +:+ "' has been created successfully.")
         (add_material material w))
    | (Exc _, (w, material)) => (RAISED, add_material material w)
    end
  end.

End WithOracle.
End Graph.

Module Unused.
Import Host.

Section WithOracle.
Variable o : oracle.

(** The set [loaded_images]: the resolved absolute path of every image
    data-block that has a file path. *)
Definition loaded_images (w : world) : gset string :=
  list_to_set
    ((fun fp => resolve o (locate o fp))
       <$> filter (fun fp => fp ≠ "") (images w)).

(** [custom_folder.rglob("*.png")]: the regular files below the folder whose
    name matches, in the order the scan yields them. *)
Definition rglob_png (folder : string) (w : world) : list string :=
  scan_order o
    (filter (fun p => Path.below folder p
                      && Path.endswith (Path.name p) ".png")
            (map_to_list (files w)).*1).

(** One round of the loop over the PNG files; returns what it adds to
    [marked_count]. *)
Definition mark (loaded : gset string) (png_file : string) : M world Z :=
  if Path.endswith (Path.name png_file) ".unused" then ret 0
  else if bool_decide (resolve o png_file ∉ loaded) then
    catch (rename png_file (Path.unused png_file) ;;; ret 1)
          (fun _ => ret 0)
  else ret 0.

Fixpoint mark_all (loaded : gset string) (png_files : list string)
    (marked_count : Z) : M world Z :=
  match png_files with
  | [] => ret marked_count
  | png_file :: rest =>
    n <- mark loaded png_file ;;
    mark_all loaded rest (marked_count + n)
  end.

(** [MATERIAL_OT_mark_unused_textures.execute], given the two scene
    properties it reads. *)
Definition execute (ambientcg_use_custom_folder : bool)
    (ambientcg_custom_folder : string) (w : world) : status * world :=
  if negb ambientcg_use_custom_folder
     || String.eqb ambientcg_custom_folder "" then
    (CANCELLED, add_report WARNING "Custom folder not configured" w)
  else
    let custom_folder := ambientcg_custom_folder in
    if negb (exists_ custom_folder w) then
      (CANCELLED, add_report WARNING "Custom folder does not exist" w)
    else
      let loaded := loaded_images w in
      match mark_all loaded (rglob_png custom_folder w) 0 w with
      | (Ret marked_count, w) =>
        (FINISHED,
         add_report INFO
           ("Marked " +:+ pretty marked_count +:+ " unused textures") w)
      | (Exc _, w) => (RAISED, w)
      end.

End WithOracle.
End Unused.

(** * Thumbnails and the preview list *)

Module Previews.
Import Host.

(** What the thumbnail side of the add-on cannot decide: what a thumbnail
    URL serves, and the icon the host hands out when a preview collection
    loads a file for a name. *)
Record oracle := {
  thumbnail : string -> option data;
  icon_id : string -> string -> Z
}.

(** [urllib.request.urlretrieve(url, path)] for a thumbnail. *)
Definition urlretrieve (o : oracle) (url path : string) : M world unit :=
  fun w =>
    match thumbnail o url with
    | Some d =>
      if bool_decide (path ∈ locked w) || bool_decide (path ∈ dirs w)
      then (Exc "OSError", w)
      else (Ret tt, log (Downloaded url path)
                      (set_files (fun m => <[path := Plain d]> m) w))
    | None => (Exc "URLError", w)
    end.

(** [get_cache_dir() / "previews" / f"{asset_id}.jpg"]. *)
Definition preview_path (cache_dir asset_id : string) : string :=
  Path.join (Path.join cache_dir "previews") (asset_id +:+ ".jpg").


(** The state [get_preview_icon] works on: the world and the preview
    collection it is given (icons by name). *)
Definition gallery : Type := world * gmap string Z.

Definition on_disk {A} (m : M world A) : M gallery A :=
  fun s => let r := m s.1 in (r.1, (r.2, s.2)).

(** [get_preview_icon(asset_id, pcoll)]. *)
Definition get_preview_icon (o : oracle) (cache_dir asset_id : string)
    : M gallery Z :=
  catch
    (on_disk (mkdir cache_dir) ;;;
     s <- get ;;
     if negb (exists_ (preview_path cache_dir asset_id) s.1) then ret 0
     else
       match s.2 !! asset_id with
       | Some thumb => ret thumb
       | None =>
         let thumb := icon_id o asset_id (preview_path cache_dir asset_id) in
         modify (fun s : gallery => (s.1, <[asset_id := thumb]> s.2)) ;;;
         ret thumb
       end)
    (fun _ => ret 0).

(** An item of the preview enumeration: identifier, name, description, icon
    and number. *)
Record enum_item := {
  identifier : string;
  name : string;
  description : string;
  icon : Z;
  number : nat
}.

Definition no_materials : list enum_item :=
  [ {| identifier := "NONE"; name := "No materials"; description := "";
       icon := 0; number := 0 |} ].

(** The loop [for i, item in enumerate(materials)] of
    [material_previews_enum], from index [i] on. *)
Fixpoint enum_from (o : oracle) (cache_dir : string) (PREVIEW_AVAILABLE : bool)
    (i : nat) (materials : list Browser.MaterialItem)
    (enum_items : list enum_item) : M gallery (list enum_item) :=
  match materials with
  | [] => ret enum_items
  | item :: rest =>
    icon_id <-
      (if PREVIEW_AVAILABLE
          && negb (String.eqb (Browser.preview_url item) "")
       then get_preview_icon o cache_dir (Browser.asset_id item)
       else ret 0) ;;
    enum_from o cache_dir PREVIEW_AVAILABLE (S i) rest
      (enum_items ++ [ {| identifier := Browser.asset_id item;
                          name := Browser.display_name item;
                          description := ""; icon := icon_id;
                          number := i |} ])
  end.

(** [material_previews_enum(self, context)]: [context] is the browser's
    collection when there is a context; [pcoll] is
    [preview_collections.get("materials")].  Returns the items (or raises)
    and leaves the world and the collection. *)
Definition material_previews_enum (o : oracle) (cache_dir : string)
    (PREVIEW_AVAILABLE : bool)
    (context : option (list Browser.MaterialItem))
    (pcoll : option (gmap string Z)) (w : world)
    : outcome (list enum_item) * (world * option (gmap string Z)) :=
  match context with
  | None => (Ret no_materials, (w, pcoll))
  | Some materials =>
    match pcoll with
    | None => (Ret no_materials, (w, pcoll))
    | Some pc =>
      if bool_decide (length materials = 0%nat)
      then (Ret no_materials, (w, pcoll))
      else
        let r := enum_from o cache_dir PREVIEW_AVAILABLE 0 materials [] (w, pc) in
        (r.1, (r.2.1, Some r.2.2))
    end
  end.

(** [on_material_preview_update]: the picked identifier becomes the material
    name, unless it is empty. *)
Definition on_material_preview_update (ambientcg_material_preview : string)
    (ambientcg_material_name : string) : string :=
  if negb (String.eqb ambientcg_material_preview "")
  then ambientcg_material_preview else ambientcg_material_name.

End Previews.

(** * Registration, [register] and [unregister] *)

Module Registry.
Import Host.

(** What registration works on: the classes registered with [bpy.utils], in
    the order of registration; the attributes that add-ons have defined on
    [bpy.types.Scene] and on [bpy.types.WindowManager]; the module's
    [preview_collections] (handles by name) and [PREVIEW_AVAILABLE]; and the
    preview collections alive in [bpy.utils.previews]. *)
Record registry := {
  registered : list string;
  scene : gset string;
  window_manager : gset string;
  preview_collections : gmap string nat;
  PREVIEW_AVAILABLE : bool;
  live : gset nat
}.

Definition set_registered (f : list string -> list string) (r : registry)
    : registry :=
  {| registered := f (registered r); scene := scene r;
     window_manager := window_manager r;
     preview_collections := preview_collections r;
     PREVIEW_AVAILABLE := PREVIEW_AVAILABLE r; live := live r |}.

Definition set_scene (f : gset string -> gset string) (r : registry) : registry :=
  {| registered := registered r; scene := f (scene r);
     window_manager := window_manager r;
     preview_collections := preview_collections r;
     PREVIEW_AVAILABLE := PREVIEW_AVAILABLE r; live := live r |}.

Definition set_window_manager (f : gset string -> gset string) (r : registry)
    : registry :=
  {| registered := registered r; scene := scene r;
     window_manager := f (window_manager r);
     preview_collections := preview_collections r;
     PREVIEW_AVAILABLE := PREVIEW_AVAILABLE r; live := live r |}.

Definition set_preview_collections
    (f : gmap string nat -> gmap string nat) (r : registry) : registry :=
  {| registered := registered r; scene := scene r;
     window_manager := window_manager r;
     preview_collections := f (preview_collections r);
     PREVIEW_AVAILABLE := PREVIEW_AVAILABLE r; live := live r |}.

Definition set_PREVIEW_AVAILABLE (b : bool) (r : registry) : registry :=
  {| registered := registered r; scene := scene r;
     window_manager := window_manager r;
     preview_collections := preview_collections r;
     PREVIEW_AVAILABLE := b; live := live r |}.

Definition set_live (f : gset nat -> gset nat) (r : registry) : registry :=
  {| registered := registered r; scene := scene r;
     window_manager := window_manager r;
     preview_collections := preview_collections r;
     PREVIEW_AVAILABLE := PREVIEW_AVAILABLE r; live := f (live r) |}.

(** [bpy.utils.register_class(cls)]: a class is registered once. *)
Definition register_class (cls : string) : M registry unit :=
  fun r =>
    if bool_decide (cls ∈ registered r) then (Exc "ValueError", r)
    else (Ret tt, set_registered (fun l => l ++ [cls]) r).

(** [bpy.utils.unregister_class(cls)]. *)
Definition unregister_class (cls : string) : M registry unit :=
  fun r =>
    if bool_decide (cls ∈ registered r)
    then (Ret tt, set_registered (filter (fun c => c <> cls)) r)
    else (Exc "RuntimeError", r).

(** [bpy.types.Scene.name = ...] and [del bpy.types.Scene.name]. *)
Definition define_scene (name : string) : M registry unit :=
  modify (set_scene (fun s => {[name]} ∪ s)).

Definition del_scene (name : string) : M registry unit :=
  fun r =>
    if bool_decide (name ∈ scene r)
    then (Ret tt, set_scene (fun s => s ∖ {[name]}) r)
    else (Exc "AttributeError", r).

Definition define_window_manager (name : string) : M registry unit :=
  modify (set_window_manager (fun s => {[name]} ∪ s)).

Definition del_window_manager (name : string) : M registry unit :=
  fun r =>
    if bool_decide (name ∈ window_manager r)
    then (Ret tt, set_window_manager (fun s => s ∖ {[name]}) r)
    else (Exc "AttributeError", r).

(** [bpy.utils.previews.new()] and [bpy.utils.previews.remove(pcoll)]. *)
Definition previews_new : M registry nat :=
  fun r => let h := fresh (live r) in (Ret h, set_live (fun s => {[h]} ∪ s) r).

Definition previews_remove (h : nat) : M registry unit :=
  fun r =>
    if bool_decide (h ∈ live r)
    then (Ret tt, set_live (fun s => s ∖ {[h]}) r)
    else (Exc "KeyError", r).

(** The tuple [classes]. *)
Definition classes : list string :=
  [ "AmbientCGPreferences"; "MaterialItem"; "MATERIAL_OT_fetch_and_create";
    "MATERIAL_OT_fetch_browser_materials"; "MATERIAL_OT_mark_unused_textures";
    "MATERIAL_PT_ambientcg_fetcher" ].

(** The scene properties, in the order [register] defines them. *)
Definition defined : list string :=
  [ "ambientcg_material_name"; "ambientcg_resolution"; "ambientcg_use_color";
    "ambientcg_use_metalness"; "ambientcg_default_metallic";
    "ambientcg_use_roughness"; "ambientcg_default_roughness";
    "ambientcg_use_normal"; "ambientcg_use_displacement";
    "ambientcg_use_custom_folder"; "ambientcg_custom_folder";
    "ambientcg_use_relative_paths"; "ambientcg_resize_multiplier";
    "ambientcg_interpolation"; "ambientcg_use_backface_culling";
    "ambientcg_search_query"; "ambientcg_browser_materials";
    "ambientcg_browser_index"; "ambientcg_browser_offset";
    "ambientcg_browser_total"; "ambientcg_current_page";
    "ambientcg_total_pages"; "ambientcg_goto_page" ].

(** The scene properties, in the order [unregister] deletes them. *)
Definition deleted : list string :=
  [ "ambientcg_material_name"; "ambientcg_resolution"; "ambientcg_use_color";
    "ambientcg_use_metalness"; "ambientcg_default_metallic";
    "ambientcg_use_roughness"; "ambientcg_default_roughness";
    "ambientcg_use_normal"; "ambientcg_use_displacement";
    "ambientcg_use_custom_folder"; "ambientcg_custom_folder";
    "ambientcg_use_relative_paths"; "ambientcg_resize_multiplier";
    "ambientcg_interpolation"; "ambientcg_search_query";
    "ambientcg_browser_materials"; "ambientcg_browser_index";
    "ambientcg_browser_offset"; "ambientcg_browser_total";
    "ambientcg_current_page"; "ambientcg_total_pages"; "ambientcg_goto_page";
    "ambientcg_use_backface_culling" ].

(** [register()]; [previews_module] tells whether [bpy.utils.previews] can
    be imported. *)
Definition register (previews_module : bool) : M registry unit :=
  Graph.for_each classes register_class ;;;
  Graph.for_each defined define_scene ;;;
  define_window_manager "ambientcg_material_preview" ;;;
  catch
    ((if previews_module then ret tt else raise "ImportError") ;;;
     pcoll <- previews_new ;;
     modify (set_preview_collections (fun m => <["materials" := pcoll]> m)) ;;;
     modify (set_PREVIEW_AVAILABLE true))
    (fun _ => modify (set_PREVIEW_AVAILABLE false)).

(** [unregister()]. *)
Definition unregister : M registry unit :=
  r <- get ;;
  (if PREVIEW_AVAILABLE r
   then catch (Graph.for_each (map_to_list (preview_collections r)).*2
                              previews_remove)
              (fun _ => ret tt)
   else ret tt) ;;;
  modify (set_preview_collections (fun _ => ∅)) ;;;
  Graph.for_each (rev classes) unregister_class ;;;
  Graph.for_each deleted del_scene ;;;
  del_window_manager "ambientcg_material_preview".

End Registry.

(** * The installer, [build.py] *)

Module Build.
Import Host.

Definition BLENDER_VERSION : string := "5.0".

(** [a <= b] on [str]: lexicographic by code point, which on the bytes of
    the model is lexicographic by byte. *)
Definition str_le (a b : string) : Prop := String.leb a b = true.

Global Instance str_le_dec (a b : string) : Decision (str_le a b).
Proof. unfold str_le. apply _. Defined.

(** [sorted(l)] on a list of [str]. *)
Definition sorted (l : list string) : list string := merge_sort str_le l.

(** [home / ".config" / "blender"]. *)
Definition blender_config (home : string) : string :=
  Path.join (Path.join home ".config") "blender".

(** [[d.name for d in blender_config.iterdir() if d.is_dir()]], given the
    names the scan yielded. *)
Definition directories (dir : string) (names : list string) (w : world)
    : list string :=
  filter (fun n => Path.join dir n ∈ dirs w) names.

(** [get_blender_addon_path()], given the home folder. *)
Definition get_blender_addon_path (o : oracle) (home : string)
    : M world string :=
  let version_path := Path.join (blender_config home) BLENDER_VERSION in
  w <- get ;;
  version_path <-
    (if negb (exists_ version_path w) then
       names <- listdir o (blender_config home) ;;
       let versions := sorted (directories (blender_config home) names w) in
       match last versions with
       | Some newest => ret (Path.join (blender_config home) newest)
       | None => raise "RuntimeError"
       end
     else ret version_path) ;;
  let extensions_path :=
    Path.join (Path.join version_path "extensions") "user_default" in
  let scripts_path := Path.join (Path.join version_path "scripts") "addons" in
  w <- get ;;
  ret (if exists_ (Path.join version_path "extensions") w
       then extensions_path else scripts_path).

(** Whether [q] is [p] or lies below it. *)
Definition within (p q : string) : bool := String.eqb q p || Path.below p q.

(** [shutil.rmtree(p)]: removes the directory [p] with everything in it.  It
    raises when [p] is not a directory, and when something in it may not be
    modified; what it has removed by then is not modelled. *)
Definition rmtree (p : string) : M world unit :=
  fun w =>
    if negb (bool_decide (p ∈ dirs w)) then (Exc "NotADirectoryError", w)
    else if bool_decide (set_Exists (fun q => within p q = true) (locked w))
    then (Exc "PermissionError", w)
    else (Ret tt,
          set_dirs (filter (fun q => within p q = false))
            (set_files (filter (fun e => within p e.1 = false)) w)).

(** [shutil.copy2(src, dst)] of a regular file onto a file path. *)
Definition copy2 (src dst : string) : M world unit :=
  fun w =>
    match files w !! src with
    | Some f =>
      if bool_decide (dst ∈ locked w) || bool_decide (dst ∈ dirs w)
      then (Exc "OSError", w)
      else (Ret tt, set_files (fun m => <[dst := f]> m) w)
    | None =>
      (Exc (if bool_decide (src ∈ dirs w) then "IsADirectoryError"
            else "FileNotFoundError"), w)
    end.

(** The installer's state: the disk and the lines printed. *)
Definition console : Type := world * list string.

Definition on_disk {A} (m : M world A) : M console A :=
  fun s => let r := m s.1 in (r.1, (r.2, s.2)).

Definition print (line : string) : M console unit :=
  modify (fun s : console => (s.1, s.2 ++ [line])).

(** The files the installer copies. *)
Definition file_names : list string := ["__init__.py"; "blender_manifest.toml"].

(** [main()], given the home folder and the folder of [build.py]. *)
Definition main (o : oracle) (home project_root : string) : M console unit :=
  base <- on_disk (get_blender_addon_path o home) ;;
  let addon_path := Path.join base "ambientcg_material_importer" in
  print ("Installing to: " +:+ addon_path) ;;;
  s <- get ;;
  (if exists_ addon_path s.1 then on_disk (rmtree addon_path) else ret tt) ;;;
  on_disk (mkdir addon_path) ;;;
  Graph.for_each file_names
    (fun file_name =>
       let source := Path.join project_root file_name in
       s <- get ;;
       if exists_ source s.1 then
         print ("Copying " +:+ file_name) ;;;
         on_disk (copy2 source (Path.join addon_path file_name))
       else ret tt) ;;;
  print "Installation complete".

End Build.

(** Whether the loop over the assets of an answer runs to its end: every
    asset carries its [assetId]. *)
Definition answer_ok (r : Browser.response) : bool :=
  match r with
  | Browser.Unreachable => false
  | Browser.Payload _ assets =>
    forallb (fun a => bool_decide (is_Some (Browser.assetId a))) assets
  end.

(** * Properties of the material browser *)

Section BrowserFacts.
Import Browser.

(** [ceil_div] is the ceiling of the quotient: the numbers of pages that are
    enough for [total] entries are those from [ceil_div total p] on. *)
Lemma ceil_div_enough (total p n : Z) :
  0 < p -> (ceil_div total p <= n <-> total <= p * n).
Proof.
  intros Hp. unfold ceil_div.
  pose proof (Z.div_mod (- total) p ltac:(lia)) as Hdm.
  pose proof (Z.mod_pos_bound (- total) p Hp) as Hb.
  split; intros H; nia.
Qed.

(** The operator's integer formula is that ceiling. *)
Lemma pages_formula (total : Z) :
  (total + MATERIALS_PER_PAGE - 1) / MATERIALS_PER_PAGE
  = ceil_div total MATERIALS_PER_PAGE.
Proof.
  unfold ceil_div, MATERIALS_PER_PAGE.
  pose proof (Z.div_mod (- total) 40 ltac:(lia)) as H1.
  pose proof (Z.mod_pos_bound (- total) 40 ltac:(lia)) as H2.
  pose proof (Z.div_mod (total + 40 - 1) 40 ltac:(lia)) as H3.
  pose proof (Z.mod_pos_bound (total + 40 - 1) 40 ltac:(lia)) as H4.
  lia.
Qed.

(** With the guard up the handler returns at once, whatever fuel is left. *)
Lemma on_page_change_guarded (fuel : nat) (w : world) :
  _updating_page w = true -> on_page_change (S fuel) w = Some w.
Proof. intros H. simpl. now rewrite H. Qed.

(** The loop over the assets raises exactly on an asset without id. *)
Lemma add_assets_raised (assets : list asset) :
  forall items dl,
    (add_assets assets items dl).2
    = negb (forallb (fun a => bool_decide (is_Some (assetId a))) assets).
Proof.
  induction assets as [|a rest IH]; intros items dl; simpl; [reflexivity|].
  destruct (assetId a) as [aid|]; simpl; [apply IH | reflexivity].
Qed.

(** Both assignments of the page field inside the operator happen with the
    guard up, so the handler they trigger does nothing: the operator behaves
    as if the field had no handler at all. *)
Lemma execute_ignores_handler (fuel : nat) (reset : bool) (w : world) :
  execute (on_page_change (S fuel)) reset w = execute Some reset w.
Proof.
  unfold execute, assign_goto_page.
  destruct reset; cbn [mbind option_bind];
    rewrite ?on_page_change_guarded by reflexivity; cbn [mbind option_bind].
  all: match goal with
       | |- context [default Unreachable ?h] => destruct (default Unreachable h)
       end; try reflexivity.
  all: match goal with
       | |- context [add_assets ?a ?b ?c] =>
         destruct (add_assets a b c) as [[items dl] raised]
       end; destruct raised; try reflexivity.
  all: rewrite on_page_change_guarded by reflexivity; reflexivity.
Qed.

(** The operator always returns when the handler has fuel for one call. *)
Lemma execute_returns (fuel : nat) (reset : bool) (w : world) :
  is_Some (execute (on_page_change (S fuel)) reset w).
Proof.
  rewrite execute_ignores_handler. unfold execute, assign_goto_page.
  destruct reset; cbn [mbind option_bind].
  all: match goal with
       | |- context [default Unreachable ?h] => destruct (default Unreachable h)
       end; [eauto|].
  all: match goal with
       | |- context [add_assets ?a ?b ?c] =>
         destruct (add_assets a b c) as [[items dl] raised]
       end; destruct raised; eauto.
Qed.

(** What a run of the operator that finishes leaves in the scene. *)
Lemma execute_finished (reset : bool) (w w' : world) :
  execute Some reset w = Some (FINISHED, w') ->
  let offset := if reset then 0 else ambientcg_browser_offset (sc w) in
  exists n assets,
    head (inbox w) = Some (Payload n assets) /\
    answer_ok (Payload n assets) = true /\
    ambientcg_browser_offset (sc w') = offset /\
    ambientcg_browser_total (sc w') = default 0 n /\
    ambientcg_current_page (sc w') = offset / MATERIALS_PER_PAGE + 1 /\
    ambientcg_total_pages (sc w')
    = Z.max 1 ((default 0 n + MATERIALS_PER_PAGE - 1) / MATERIALS_PER_PAGE) /\
    ambientcg_goto_page (sc w') = Z.max 1 (offset / MATERIALS_PER_PAGE + 1) /\
    _updating_page w' = false /\
    requests w'
    = requests w ++ [{| req_limit := MATERIALS_PER_PAGE; req_offset := offset;
                        req_query :=
                          if String.eqb (ambientcg_search_query (sc w)) ""
                          then None
                          else Some (ambientcg_search_query (sc w)) |}].
Proof.
  unfold execute, assign_goto_page.
  destruct reset; cbn [mbind option_bind]; cbn -[Z.div Z.max Z.add Z.sub].
  all: destruct (inbox w) as [|[|n assets] rest] eqn:Hin; cbn -[Z.div Z.max Z.add Z.sub];
    try discriminate.
  all: pose proof (add_assets_raised assets [] []) as Hr;
    destruct (add_assets assets [] []) as [[items dl] raised];
    cbn -[Z.div Z.max Z.add Z.sub] in *; destruct raised; try discriminate.
  all: intros [= <-]; exists n, assets; cbn -[Z.div Z.max Z.add Z.sub].
  all: repeat split; try reflexivity.
  all: symmetry in Hr; apply negb_false_iff in Hr; exact Hr.
Qed.

(** Without fuel the handler does not return, and the operator cannot
    finish: it only comes back from its error paths. *)
Lemma execute_no_fuel (reset : bool) (w w' : world) (st : status) :
  execute (on_page_change 0) reset w = Some (st, w') -> st = CANCELLED.
Proof.
  unfold execute, assign_goto_page.
  destruct reset; cbn [mbind option_bind on_page_change]; [discriminate|].
  destruct (default Unreachable (head (inbox w))); [now intros [= <- _]|].
  match goal with
  | |- context [add_assets ?a ?b ?c] =>
    destruct (add_assets a b c) as [[items dl] raised]
  end.
  destruct raised; [now intros [= <- _]|discriminate].
Qed.






(** ** The search scenario of the specification: query [rock], 105 results *)

Definition rock_answer : response :=
  Payload (Some 105)
    [ {| assetId := Some "Rock035"; displayName := Some "Rock 035";
         previewImage := Some "https://acg-media.example/Rock035.jpg" |};
      {| assetId := Some "Rock036"; displayName := None;
         previewImage := None |} ].

Definition rock_world : world :=
  {| sc := {| ambientcg_search_query := "rock";
              ambientcg_browser_offset := 0;
              ambientcg_browser_total := 0;
              ambientcg_current_page := 1;
              ambientcg_total_pages := 1;
              ambientcg_goto_page := 1;
              ambientcg_browser_materials := [] |};
     _updating_page := false;
     inbox := [rock_answer; rock_answer; rock_answer];
     requests := []; preview_jobs := []; reports := [] |}.

(** The world after pressing Search in [rock_world]. *)
Definition rock_searched : world :=
  Eval vm_compute in
    match fetch_browser_materials 1 true rock_world with
    | Some (_, w) => w
    | None => rock_world
    end.

Example rock_search_pages :
  fetch_browser_materials 1 true rock_world = Some (FINISHED, rock_searched) /\
  ambientcg_browser_total (sc rock_searched) = 105 /\
  ambientcg_total_pages (sc rock_searched) = 3 /\
  ambientcg_current_page (sc rock_searched) = 1.
Proof. vm_compute. repeat split. Qed.

Example rock_page_2 :
  (fun w => (ambientcg_browser_offset (sc w), ambientcg_current_page (sc w),
             ambientcg_goto_page (sc w)))
    <$> user_sets_page 2 2 rock_searched
  = Some (40, 2, 2).
Proof. vm_compute. reflexivity. Qed.

Example rock_page_4 :
  (fun w => (ambientcg_browser_offset (sc w), ambientcg_current_page (sc w),
             ambientcg_goto_page (sc w)))
    <$> user_sets_page 2 4 rock_searched
  = Some (80, 3, 3).
Proof. vm_compute. reflexivity. Qed.

Example rock_page_0 :
  (fun w => (ambientcg_browser_offset (sc w), ambientcg_current_page (sc w),
             ambientcg_goto_page (sc w)))
    <$> user_sets_page 2 0 rock_searched
  = Some (0, 1, 1).
Proof. vm_compute. reflexivity. Qed.

(** C1: after every run of the fetch operator that finishes, the current page
    is [offset // 40 + 1], and the number of pages is the operator's integer
    formula [(total + 39) // 40] raised to at least 1: it is the ceiling of
    [total / 40] for every positive total, and 1 when the total is 0. *)
Theorem fetch_pagination_invariant (fuel : nat) (reset : bool) (w w' : world) :
  fetch_browser_materials fuel reset w = Some (FINISHED, w') ->
  ambientcg_current_page (sc w') = ambientcg_browser_offset (sc w') / 40 + 1 /\
  ambientcg_total_pages (sc w')
  = Z.max 1 ((ambientcg_browser_total (sc w') + 40 - 1) / 40) /\
  ambientcg_total_pages (sc w')
  = Z.max 1 (ceil_div (ambientcg_browser_total (sc w')) 40) /\
  1 <= ambientcg_total_pages (sc w') /\
  (1 <= ambientcg_browser_total (sc w') ->
   ambientcg_total_pages (sc w') = ceil_div (ambientcg_browser_total (sc w')) 40) /\
  (ambientcg_browser_total (sc w') = 0 -> ambientcg_total_pages (sc w') = 1).
Proof.
  unfold fetch_browser_materials. intros Hrun.
  destruct fuel as [|fuel]; [apply execute_no_fuel in Hrun; discriminate|].
  rewrite execute_ignores_handler in Hrun.
  destruct (execute_finished _ _ _ Hrun)
    as (n & assets & _ & _ & Hoff & Htot & Hcur & Hpages & _).
  rewrite Hoff, Htot, Hcur, Hpages.
  pose proof (pages_formula (default 0 n)) as Hf.
  unfold MATERIALS_PER_PAGE in *. rewrite Hf.
  pose proof (ceil_div_enough (default 0 n) 40 0 ltac:(lia)) as H0.
  repeat split; lia.
Qed.

Lemma fetch_pagination_invariant_witness :
  ambientcg_current_page (sc rock_searched)
  = ambientcg_browser_offset (sc rock_searched) / 40 + 1 /\
  ambientcg_total_pages (sc rock_searched) = 3.
Proof.
  pose proof (fetch_pagination_invariant 1 true rock_world rock_searched
                (proj1 rock_search_pages)) as (Hcur & Hpages & _).
  split; [exact Hcur|]. rewrite Hpages. reflexivity.
Defined.





(** C8: with the guard up the handler returns the world as it found it: the
    offset, the current page, the number of pages and everything else keep
    their values and no request is sent.  Hence the operator's own
    assignments of the page field, made with the guard up, have no effect
    beyond storing the value: the operator runs as if the field had no
    handler, it returns, and it sends exactly one request. *)
Theorem page_change_guard (fuel : nat) (w : world) :
  (_updating_page w = true -> on_page_change (S fuel) w = Some w) /\
  (forall reset,
     fetch_browser_materials (S fuel) reset w = execute Some reset w /\
     exists st w',
       fetch_browser_materials (S fuel) reset w = Some (st, w') /\
       length (requests w') = S (length (requests w))).
Proof.
  split; [apply on_page_change_guarded|].
  intros reset. unfold fetch_browser_materials.
  split; [apply execute_ignores_handler|].
  destruct (execute_returns fuel reset w) as [[st w'] Hex].
  exists st, w'. split; [exact Hex|].
  rewrite execute_ignores_handler in Hex. clear fuel.
  revert Hex. unfold execute, assign_goto_page.
  destruct reset; cbn [mbind option_bind].
  all: match goal with
       | |- context [default Unreachable ?h] => destruct (default Unreachable h)
       end.
  all: try match goal with
       | |- context [add_assets ?a ?b ?c] =>
         destruct (add_assets a b c) as [[items dl] raised]; destruct raised
       end.
  all: intros [= _ <-]; cbn; rewrite length_app; cbn; lia.
Qed.

(** A world caught in the middle of a page change: the guard is up. *)
Definition rock_updating : world := set_updating_page true rock_searched.

Lemma page_change_guard_witness :
  on_page_change 1 rock_updating = Some rock_updating.
Proof. exact (proj1 (page_change_guard 0 rock_updating) eq_refl). Defined.

End BrowserFacts.

(** * Facts about paths *)

Section PathFacts.
Import Path.

Lemma chars_app (a b : string) : chars (a +:+ b) = chars a ++ chars b.
Proof.
  unfold chars. induction a as [|c a IH]; [reflexivity|].
  change (String c a +:+ b) with (String c (a +:+ b)).
  cbn [list_ascii_of_string]. now rewrite IH.
Qed.

Lemma chars_text (l : list ascii) : chars (text l) = l.
Proof. apply list_ascii_of_string_of_list_ascii. Qed.

Lemma chars_inj (a b : string) : chars a = chars b -> a = b.
Proof.
  intros H. rewrite <- (string_of_list_ascii_of_string a),
    <- (string_of_list_ascii_of_string b).
  unfold chars in H. now rewrite H.
Qed.

Lemma endswith_true (s suf : string) :
  endswith s suf = true <-> chars suf `suffix_of` chars s.
Proof. unfold endswith. apply bool_decide_eq_true. Qed.


(** A text and a non-empty ending of it have the same last character. *)
Lemma endswith_last (s suf : string) (c : ascii) :
  endswith s suf = true -> last (chars suf) = Some c -> last (chars s) = Some c.
Proof.
  intros [k Hk]%endswith_true Hc. rewrite Hk, last_app, Hc. reflexivity.
Qed.


Lemma unused_inj (p q : string) : unused p = unused q -> p = q.
Proof.
  unfold unused. intros H. apply chars_inj.
  apply (f_equal chars) in H. rewrite !chars_app in H.
  now apply app_inv_tail in H.
Qed.

Lemma last_unused (p : string) : last (chars (unused p)) = Some "d"%char.
Proof. unfold unused. rewrite chars_app, last_app. reflexivity. Qed.

(** A path that ends in [.png] is not the flagged form of any path. *)
Lemma png_not_unused (p q : string) :
  endswith p ".png" = true -> p <> unused q.
Proof.
  intros Hp ->. pose proof (endswith_last _ _ "g"%char Hp eq_refl) as H.
  rewrite last_unused in H. discriminate.
Qed.

Lemma unused_neq (p : string) : unused p <> p.
Proof.
  unfold unused. intros H. apply (f_equal chars) in H.
  rewrite chars_app in H. apply (f_equal length) in H.
  rewrite length_app in H. cbn in H. lia.
Qed.

Lemma take_until_prefix (c : ascii) (l : list ascii) :
  take_until c l `prefix_of` l.
Proof.
  induction l as [|x l IH]; cbn; [reflexivity|].
  destruct (Ascii.eqb x c); [apply prefix_nil|now apply prefix_cons].
Qed.

Lemma after_last_suffix (c : ascii) (l : list ascii) :
  after_last c l `suffix_of` l.
Proof.
  unfold after_last. destruct (take_until_prefix c (rev l)) as [k Hk].
  exists (rev k). apply (f_equal (@rev ascii)) in Hk.
  rewrite rev_involutive, rev_app_distr in Hk. exact Hk.
Qed.

(** A path ends the way its name does. *)
Lemma name_endswith (p suf : string) :
  endswith (name p) suf = true -> endswith p suf = true.
Proof.
  rewrite !endswith_true. unfold name. rewrite chars_text. intros H.
  etransitivity; [exact H|apply after_last_suffix].
Qed.

Lemma join_endswith (dir file suf : string) :
  endswith file suf = true -> endswith (join dir file) suf = true.
Proof.
  rewrite !endswith_true. unfold join. rewrite !chars_app. intros H.
  now do 2 apply suffix_app_r.
Qed.

End PathFacts.

(** * Facts about computations that may raise *)

Section MonadFacts.
Import Host.
Context {S : Type}.

(** A sequence that returns went through both of its parts. *)
Lemma bind_returns {A B} (m : M S A) (k : A -> M S B) (s s' : S) (b : B) :
  bind m k s = (Ret b, s') ->
  exists a s1, m s = (Ret a, s1) /\ k a s1 = (Ret b, s').
Proof.
  unfold bind. destruct (m s) as [[a|what] s1]; [eauto|discriminate].
Qed.

Lemma get_returns (s s' : S) (a : S) :
  get s = (Ret a, s') -> a = s /\ s' = s.
Proof. unfold get. now intros [= <- <-]. Qed.

Lemma ret_returns {A} (x a : A) (s s' : S) :
  ret x s = (Ret a, s') -> a = x /\ s' = s.
Proof. unfold ret. now intros [= <- <-]. Qed.

Lemma modify_returns (f : S -> S) (s s' : S) (a : unit) :
  modify f s = (Ret a, s') -> s' = f s.
Proof. unfold modify. now intros [= _ <-]. Qed.

End MonadFacts.

(** Take apart a hypothesis that says a sequence of operations returned:
    [split_run H as a s H1] gives the first operation's result [a], the state
    [s] it left and its run [H1]; [H] becomes the run of the rest. *)
Tactic Notation "split_run" hyp(H) "as" ident(a) ident(s) ident(H1) :=
  apply bind_returns in H; destruct H as (a & s & H1 & H).

Ltac end_run H :=
  lazymatch type of H with
  | Host.get _ = (Host.Ret _, _) =>
    apply get_returns in H; destruct H as [-> ->]
  | Host.ret _ _ = (Host.Ret _, _) =>
    apply ret_returns in H; destruct H as [-> ->]
  | Host.modify _ _ = (Host.Ret _, _) =>
    apply modify_returns in H; subst
  end.

(** * Facts about texture processing *)

Section TextureFacts.
Import Host Texture.

(** What a call of [restore_unused_texture] that returns has done: nothing
    when there is no flagged file; otherwise the flagged file is back under
    its name.  Either way no flagged file is left. *)
Lemma restore_returns (p : string) (w w' : world) (b : bool) :
  restore_unused_texture p w = (Ret b, w') ->
  exists_ (Path.unused p) w' = false /\
  dirs w' = dirs w /\ locked w' = locked w /\ images w' = images w /\
  materials w' = materials w /\ reports w' = reports w /\
  blend_filepath w' = blend_filepath w /\
  (if b then
     exists f, files w !! Path.unused p = Some f /\
               files w' = <[p := f]> (delete (Path.unused p) (files w)) /\
               trace w' = trace w ++ [Renamed (Path.unused p) p]
   else w' = w).
Proof.
  unfold restore_unused_texture. intros H.
  split_run H as w0 s0 Hget. end_run Hget.
  destruct (exists_ (Path.unused p) w) eqn:Hex.
  - split_run H as u s1 Hren. end_run H. revert Hren. unfold rename.
    destruct (files w !! Path.unused p) as [f|] eqn:Hf; [|discriminate].
    destruct (_ || _) eqn:Hl; [discriminate|]. intros [= <- <-].
    apply orb_false_elim in Hl as [Hl Hd2]. apply orb_false_elim in Hl as [Hl Hd].
    apply bool_decide_eq_false in Hd2.
    repeat split; try reflexivity.
    + unfold exists_. cbn.
      rewrite lookup_insert_ne by (intros E; symmetry in E; now apply unused_neq in E).
      rewrite lookup_delete_eq.
      rewrite bool_decide_eq_false_2 by (intros [? ?]; discriminate).
      now rewrite bool_decide_eq_false_2.
    + exists f. repeat split; reflexivity.
  - end_run H. repeat split; try reflexivity. exact Hex.
Qed.


(** The data-block that [images.load] appended, after its path was set. *)
Lemma renamed_block {A} (l : list A) (a b : A) :
  <[length l := b]> (l ++ [a]) !! length l = Some b /\
  delete (length l) (<[length l := b]> (l ++ [a])) = l.
Proof.
  induction l as [|x l [IH1 IH2]]; cbn; [split; reflexivity|].
  split; [exact IH1|]. f_equal. exact IH2.
Qed.

(** The path [process_texture] writes to ends in [.png]. *)
Lemma output_path_png (folder src name : string) (r : float) :
  Path.endswith (Path.join folder (output_name src r name)) ".png" = true.
Proof.
  apply join_endswith, endswith_true. unfold output_name.
  rewrite !chars_app. now do 5 apply suffix_app_r.
Qed.

(** Every call of [process_texture] that returns first restored its source
    and its output, and then either found the output in place and left the
    world alone, or read the source, scaled it when the multiplier differs
    from one, and wrote the output. *)
Lemma process_texture_returns (o : oracle) (src folder : string) (r : float)
    (rel : bool) (name : string) (w w1 : world) (p : string) :
  process_texture o src folder r rel name w = (Ret p, w1) ->
  let out := Path.join folder (output_name src r name) in
  exists b1 wa b2 wb,
    restore_unused_texture src w = (Ret b1, wa) /\
    restore_unused_texture out wa = (Ret b2, wb) /\
    p = (if rel && negb (String.eqb (blend_filepath w) "")
         then relpath o out else out) /\
    blend_filepath w1 = blend_filepath w /\ dirs w1 = dirs w /\
    locked w1 = locked w /\ images w1 = images w /\
    materials w1 = materials w /\ reports w1 = reports w /\
    ((exists_ out wb = true /\ w1 = wb) \/
     (exists_ out wb = false /\
      exists img nw nh,
        files wb !! locate o src = Some (Plain (Png img)) /\
        Num.py_int (PrimFloat.mul (Num.of_int (size img).1) r) = Some nw /\
        Num.py_int (PrimFloat.mul (Num.of_int (size img).2) r) = Some nh /\
        files w1
        = <[out := Plain (Png (if Num.differs_from_one r
                               then scale nw nh img else img))]> (files wb) /\
        trace w1 = trace wb ++ [Loaded src; Saved out])).
Proof.
  intros H out. unfold process_texture in H. fold out in H.
  split_run H as b1 wa Hr1. split_run H as b2 wb Hr2.
  split_run H as w0 s0 Hget. end_run Hget.
  exists b1, wa, b2, wb. split; [exact Hr1|]. split; [exact Hr2|].
  destruct (restore_returns _ _ _ _ Hr1)
    as (_ & Hd1 & Hl1 & Hi1 & Hm1 & Hp1 & Hb1 & _).
  destruct (restore_returns _ _ _ _ Hr2)
    as (_ & Hd2 & Hl2 & Hi2 & Hm2 & Hp2 & Hb2 & _).
  destruct (exists_ out wb) eqn:Hex.
  - unfold get_texture_path in H. split_run H as w0 s0 Hget. end_run Hget.
    end_run H. rewrite Hb2, Hb1.
    repeat split; try congruence. now left.
  - split_run H as loaded wc Hload.
    split_run H as nw wd Hw. split_run H as nh we Hh.
    split_run H as u1 wf Hraw. split_run H as u2 wg Hsave.
    split_run H as u3 wh Hrem.
    unfold get_texture_path in H. split_run H as w0 s0 Hget. end_run Hget.
    end_run H.
    revert Hload. unfold images_load.
    destruct (files wb !! locate o src) as [[[img|]|]|] eqn:Hsrc;
      try discriminate.
    intros [= <- <-]. cbn [fst snd] in *.
    unfold scaled in Hw, Hh.
    destruct (Num.py_int (PrimFloat.mul (Num.of_int (size img).1) r))
      as [nw'|] eqn:Hnw; [|discriminate].
    end_run Hw.
    destruct (Num.py_int (PrimFloat.mul (Num.of_int (size img).2) r))
      as [nh'|] eqn:Hnh; [|discriminate].
    end_run Hh.
    unfold set_filepath_raw in Hraw. end_run Hraw.
    unfold images_remove in Hrem. end_run Hrem.
    revert Hsave. unfold image_save. cbn [images set_images log].
    destruct (renamed_block (images wb) src out) as [Hlk Hdel].
    rewrite Hlk.
    destruct (_ || _) eqn:Hperm; [discriminate|]. intros [= _ <-].
    cbn. rewrite Hdel, Hb2, Hb1.
    repeat split; try congruence.
    right. split; [reflexivity|]. exists img, nw', nh'.
    repeat split; try assumption. now rewrite <- app_assoc.
Qed.

End TextureFacts.

Section TextureClaims.
Import Host Texture.

Lemma exists_false (p : string) (w : world) :
  exists_ p w = false <-> files w !! p = None /\ p ∉ dirs w.
Proof.
  unfold exists_. rewrite orb_false_iff, !bool_decide_eq_false.
  rewrite <- eq_None_not_Some. reflexivity.
Qed.

Lemma exists_file (p : string) (w : world) (f : file) :
  files w !! p = Some f -> exists_ p w = true.
Proof.
  intros H. unfold exists_. rewrite H.
  rewrite bool_decide_eq_true_2 by eauto. reflexivity.
Qed.

(** Without a flagged file there is nothing to restore. *)
Lemma restore_nothing (p : string) (w : world) :
  exists_ (Path.unused p) w = false ->
  restore_unused_texture p w = (Ret false, w).
Proof.
  intros H. unfold restore_unused_texture, bind, get. now rewrite H.
Qed.

(** Restoring one path leaves another path without a flagged file. *)
Lemma restore_keeps_absent (p q : string) (w w' : world) (b : bool) :
  restore_unused_texture p w = (Ret b, w') ->
  Path.endswith p ".png" = true ->
  exists_ (Path.unused q) w = false ->
  exists_ (Path.unused q) w' = false.
Proof.
  intros Hr Hpng Hq.
  destruct (restore_returns _ _ _ _ Hr) as (_ & Hd & _ & _ & _ & _ & _ & Hb).
  destruct b; [|now subst].
  destruct Hb as (f & _ & Hf & _).
  apply exists_false in Hq as [Hq1 Hq2]. apply exists_false.
  rewrite Hf, Hd. split; [|exact Hq2].
  rewrite lookup_insert_ne by now apply png_not_unused.
  rewrite lookup_delete. case_decide; [reflexivity|exact Hq1].
Qed.

(** What holds after every call of [process_texture] that returned: the
    output is in place and neither the source nor the output has a flagged
    sibling. *)
Lemma process_texture_settled (o : oracle) (src folder : string) (r : float)
    (rel : bool) (name : string) (w w1 : world) (p : string) :
  process_texture o src folder r rel name w = (Ret p, w1) ->
  let out := Path.join folder (output_name src r name) in
  exists_ (Path.unused src) w1 = false /\
  exists_ (Path.unused out) w1 = false /\
  exists_ out w1 = true.
Proof.
  intros H out.
  destruct (process_texture_returns _ _ _ _ _ _ _ _ _ H)
    as (b1 & wa & b2 & wb & Hr1 & Hr2 & _ & _ & Hd & _ & _ & _ & _ & Hcase).
  fold out in Hr2, Hcase.
  pose proof (output_path_png folder src name r) as Hpng. fold out in Hpng.
  destruct (restore_returns _ _ _ _ Hr1) as (Ha & Hda & _).
  destruct (restore_returns _ _ _ _ Hr2) as (Hb & Hdb & _).
  pose proof (restore_keeps_absent _ src _ _ _ Hr2 Hpng Ha) as Hsrc.
  destruct Hcase as [[Hex ->]|(Hex & img & nw & nh & _ & _ & _ & Hf & _)].
  - auto.
  - apply exists_false in Hsrc as [Hs1 Hs2]. apply exists_false in Hb as [Hb1 Hb2].
    assert (Hdw : dirs w1 = dirs wb) by congruence.
    repeat split.
    + apply exists_false. rewrite Hf, Hdw. split; [|exact Hs2].
      rewrite lookup_insert_ne by now apply png_not_unused. exact Hs1.
    + apply exists_false. rewrite Hf, Hdw. split; [|exact Hb2].
      rewrite lookup_insert_ne by now apply png_not_unused. exact Hb1.
    + eapply exists_file. rewrite Hf. apply lookup_insert_eq.
Qed.

(** C5: a second call of [process_texture] with the same arguments, after a
    first one that returned, returns the same path and leaves the world as
    it found it: no file is read, written or renamed (the trace of effects,
    the files and the image data-blocks are those the first call left). *)
Theorem process_texture_idempotent (o : oracle) (src folder : string)
    (r : float) (rel : bool) (name : string) (w w1 : world) (p : string) :
  process_texture o src folder r rel name w = (Ret p, w1) ->
  process_texture o src folder r rel name w1 = (Ret p, w1).
Proof.
  intros H.
  destruct (process_texture_settled _ _ _ _ _ _ _ _ _ H) as (Hs & Ho & Hex).
  destruct (process_texture_returns _ _ _ _ _ _ _ _ _ H)
    as (_ & _ & _ & _ & _ & _ & -> & Hb & _).
  unfold process_texture, bind.
  rewrite (restore_nothing _ _ Hs), (restore_nothing _ _ Ho).
  unfold get at 1. rewrite Hex.
  unfold get_texture_path, bind, get, ret. now rewrite Hb.
Qed.

End TextureClaims.

Section TextureDimensions.
Import Host Texture.

(** [py_int] truncates: for a positive finite float [m * 2^e] with [e < 0]
    the result [n] is the integer with [n <= m / 2^-e < n + 1]. *)
Lemma py_int_truncates (x : float) (m : positive) (e : Z) :
  Prim2SF x = S754_finite false m e -> e < 0 ->
  exists n, Num.py_int x = Some n /\
            n * 2 ^ (- e) <= Z.pos m < (n + 1) * 2 ^ (- e).
Proof.
  intros Hx He. unfold Num.py_int. rewrite Hx.
  destruct (Z.leb_spec 0 e); [lia|].
  eexists. split; [reflexivity|].
  assert (Hpos : 0 < 2 ^ (- e)) by (apply Z.pow_pos_nonneg; lia).
  pose proof (Z.div_mod (Z.pos m) (2 ^ (- e)) ltac:(lia)) as Hdm.
  pose proof (Z.mod_pos_bound (Z.pos m) (2 ^ (- e)) Hpos) as Hb.
  nia.
Qed.

(** A world with the extracted colour map of the specification's scenario,
    1001 by 999 pixels, and an output folder. *)
Definition plain_host : oracle :=
  {| relpath := fun p => "//" +:+ p; abspath := fun p => p;
     resolve := fun p => p; remote := fun _ => None;
     scan_order := fun l => l |}.

Definition rock_color : image := {| size := (1001, 999); px := Original 1 |}.

Definition rock_source : string := "/cache/Rock035_2K-PNG/Rock035_Color.png".

Definition rock_disk : world :=
  {| files := {[ rock_source := Plain (Png rock_color) ]};
     dirs := {[ "/cache"; "/cache/Rock035_2K-PNG"; "/textures" ]};
     locked := ∅; images := []; materials := []; blend_filepath := "";
     trace := []; reports := [] |}.

(** The scenario: scale 1.0 gives [Rock035_Color_1.00.png] holding the very
    picture of the source. *)
Example rock_unscaled :
  let run := process_texture plain_host rock_source "/textures" 1%float false
               "Rock035" rock_disk in
  run.1 = Ret "/textures/Rock035_Color_1.00.png" /\
  files run.2 !! "/textures/Rock035_Color_1.00.png"
  = Some (Plain (Png rock_color)) /\
  trace run.2 = [Loaded rock_source; Saved "/textures/Rock035_Color_1.00.png"].
Proof. vm_compute. repeat split. Qed.




End TextureDimensions.

Section MarkRestore.
Import Host Texture.

(** What a renaming that returned has done. *)
Lemma rename_returns (src dst : string) (w w' : world) (u : unit) :
  rename src dst w = (Ret u, w') ->
  exists f,
    files w !! src = Some f /\
    (src ∉ locked w) /\ (dst ∉ locked w) /\ (dst ∉ dirs w) /\
    (src ∉ dirs w) /\
    w' = log (Renamed src dst)
           (set_files (fun m => <[dst := f]> (delete src m)) w).
Proof.
  unfold rename. destruct (files w !! src) as [f|]; [|discriminate].
  destruct (_ || _) eqn:Hl; [discriminate|]. intros [= <- <-].
  apply orb_false_elim in Hl as [Hl H4]. apply orb_false_elim in Hl as [Hl H3].
  apply orb_false_elim in Hl as [H1 H2].
  apply bool_decide_eq_false in H1, H2, H3, H4.
  exists f. repeat split; solve [assumption | reflexivity].
Qed.

(** A renaming that nothing forbids returns. *)
Lemma rename_permitted (src dst : string) (w : world) (f : file) :
  files w !! src = Some f ->
  src ∉ locked w -> dst ∉ locked w -> dst ∉ dirs w -> src ∉ dirs w ->
  rename src dst w
  = (Ret tt, log (Renamed src dst)
               (set_files (fun m => <[dst := f]> (delete src m)) w)).
Proof.
  intros Hf H1 H2 H3 H4. unfold rename. rewrite Hf.
  now rewrite !bool_decide_eq_false_2 by assumption.
Qed.

(** A round of the marking loop that counts 1 has renamed its file. *)
Lemma mark_counted (o : oracle) (loaded : gset string) (p : string)
    (w w1 : world) :
  Unused.mark o loaded p w = (Ret 1, w1) ->
  rename p (Path.unused p) w = (Ret tt, w1).
Proof.
  unfold Unused.mark.
  destruct (Path.endswith _ _); [discriminate|].
  destruct (bool_decide _); [|discriminate].
  unfold catch, bind.
  destruct (rename p (Path.unused p) w) as [[[]|what] w'];
    [|discriminate].
  unfold ret. now intros [= <-].
Qed.

(** C7: when the marking loop has flagged the file at [p] (it counted it),
    the file sits under [p + ".unused"] and no longer under [p]; restoring
    [p], as [process_texture] does first for its source and for its output,
    then succeeds and puts the very same file back under [p], with nothing
    left under the flagged name: the two renamings are inverse to each other,
    and every other file is as it was.  So a call of [process_texture] whose
    output had been flagged finds its output again and returns it without
    processing anything. *)
Theorem mark_restore_round_trip (o : oracle) (loaded : gset string)
    (p : string) (f : file) (w w1 : world) :
  files w !! p = Some f ->
  Unused.mark o loaded p w = (Ret 1, w1) ->
  (files w1 !! p = None /\ files w1 !! Path.unused p = Some f) /\
  exists w2,
    restore_unused_texture p w1 = (Ret true, w2) /\
    files w2 !! p = Some f /\
    files w2 !! Path.unused p = None /\
    (forall q, q <> Path.unused p -> files w2 !! q = files w !! q) /\
    dirs w2 = dirs w /\ images w2 = images w /\
    trace w2
    = trace w ++ [Renamed p (Path.unused p); Renamed (Path.unused p) p] /\
    (forall src folder r rel name,
       p = Path.join folder (output_name src r name) ->
       exists_ (Path.unused src) w1 = false ->
       process_texture o src folder r rel name w1
       = (Ret (if rel && negb (String.eqb (blend_filepath w) "")
               then relpath o p else p), w2)).
Proof.
  intros Hf Hmark. apply mark_counted in Hmark.
  destruct (rename_returns _ _ _ _ _ Hmark)
    as (f' & Hf' & Hl1 & Hl2 & Hd1 & Hd2 & ->).
  rewrite Hf in Hf'. injection Hf' as <-.
  pose proof (unused_neq p) as Hne.
  assert (Hback : files (log (Renamed p (Path.unused p))
                    (set_files (fun m => <[Path.unused p := f]> (delete p m)) w))
                  !! Path.unused p = Some f)
    by (cbn; apply lookup_insert_eq).
  split.
  { split; [|exact Hback]. cbn.
    rewrite lookup_insert_ne by exact Hne. apply lookup_delete_eq. }
  eexists. split.
  { unfold restore_unused_texture, bind, get.
    rewrite (exists_file _ _ _ Hback).
    rewrite (rename_permitted _ _ _ f Hback) by assumption.
    reflexivity. }
  cbn. split; [apply lookup_insert_eq|]. split.
  { rewrite lookup_insert_ne by congruence. apply lookup_delete_eq. }
  split.
  { intros q Hq. destruct (decide (q = p)) as [->|Hqp].
    - rewrite lookup_insert_eq. now symmetry.
    - rewrite lookup_insert_ne by congruence.
      rewrite lookup_delete_ne by congruence.
      rewrite lookup_insert_ne by congruence.
      now rewrite lookup_delete_ne by congruence. }
  split; [reflexivity|]. split; [reflexivity|].
  split; [now rewrite <- app_assoc|].
  intros src folder r rel name Hp Hsrc.
  unfold process_texture, bind. rewrite (restore_nothing _ _ Hsrc).
  rewrite <- Hp.
  unfold restore_unused_texture, bind, get.
  rewrite (exists_file _ _ _ Hback).
  rewrite (rename_permitted _ _ _ f Hback) by assumption.
  unfold ret at 1. cbv beta iota.
  match goal with
  | |- context [exists_ p ?w2] =>
    rewrite (exists_file p w2 f) by (cbn; apply lookup_insert_eq)
  end.
  reflexivity.
Qed.

End MarkRestore.

(** * Facts about marking unused textures *)

Section UnusedFacts.
Import Host Unused.
Variable o : oracle.

(** The renaming of [p] to its flagged name is permitted in a world with the
    given locked paths and directories. *)
Definition permitted (lk dr : gset string) (p : string) : Prop :=
  (p ∉ lk) /\ (Path.unused p ∉ lk) /\ (Path.unused p ∉ dr) /\ (p ∉ dr).

Global Instance permitted_dec lk dr p : Decision (permitted lk dr p).
Proof. unfold permitted. apply _. Defined.

(** The files a round of the loop flags: not loaded, and free to be renamed. *)
Definition to_mark (loaded lk dr : gset string) (p : string) : Prop :=
  (resolve o p ∉ loaded) /\ permitted lk dr p.

Global Instance to_mark_dec loaded lk dr p : Decision (to_mark loaded lk dr p).
Proof. unfold to_mark. apply _. Defined.

(** A renaming that is not permitted raises and changes nothing. *)
Lemma rename_forbidden (p : string) (w : world) :
  ~ permitted (locked w) (dirs w) p ->
  exists what, rename p (Path.unused p) w = (Exc what, w).
Proof.
  intros Hn. unfold rename. destruct (files w !! p); [|eauto].
  destruct (_ || _) eqn:Hl; [eauto|]. exfalso. apply Hn.
  apply orb_false_elim in Hl as [Hl H4]. apply orb_false_elim in Hl as [Hl H3].
  apply orb_false_elim in Hl as [H1 H2].
  apply bool_decide_eq_false in H1, H2, H3, H4. repeat split; assumption.
Qed.

(** One round of the loop over a PNG file that exists. *)
Lemma mark_round (loaded : gset string) (p : string) (f : file) (w : world) :
  files w !! p = Some f ->
  Path.endswith (Path.name p) ".unused" = false ->
  mark o loaded p w
  = if decide (to_mark loaded (locked w) (dirs w) p)
    then (Ret 1, log (Renamed p (Path.unused p))
                   (set_files (fun m => <[Path.unused p := f]> (delete p m)) w))
    else (Ret 0, w).
Proof.
  intros Hf Hn. unfold mark. rewrite Hn.
  destruct (decide (to_mark loaded (locked w) (dirs w) p)) as [[Hl Hp]|Hno].
  - rewrite bool_decide_eq_true_2 by exact Hl.
    destruct Hp as (H1 & H2 & H3 & H4).
    unfold catch, bind. now rewrite (rename_permitted _ _ _ f Hf).
  - destruct (decide (resolve o p ∉ loaded)) as [Hl|Hl].
    + rewrite bool_decide_eq_true_2 by exact Hl.
      destruct (rename_forbidden p w) as [what Hex].
      { intros Hp. apply Hno. now split. }
      unfold catch, bind. now rewrite Hex.
    + now rewrite bool_decide_eq_false_2 by exact Hl.
Qed.

(** The loop over PNG files that exist, each listed once: it returns; it
    adds to the count the number of files it flagged; each flagged file has
    moved to its flagged name; every other path holds what it held. *)
Lemma mark_all_spec (loaded : gset string) (l : list string) :
  forall (w : world) (n : Z),
    NoDup l ->
    (forall p, p ∈ l ->
       is_Some (files w !! p) /\ Path.endswith p ".png" = true /\
       Path.endswith (Path.name p) ".unused" = false) ->
    let R := filter (to_mark loaded (locked w) (dirs w)) l in
    exists w',
      mark_all o loaded l n w = (Ret (n + Z.of_nat (length R)), w') /\
      dirs w' = dirs w /\ locked w' = locked w /\ images w' = images w /\
      materials w' = materials w /\ reports w' = reports w /\
      trace w' = trace w ++ ((fun p => Renamed p (Path.unused p)) <$> R) /\
      (forall p, p ∈ R ->
         files w' !! p = None /\ files w' !! Path.unused p = files w !! p) /\
      (forall q, q ∉ R -> (forall p, p ∈ R -> q <> Path.unused p) ->
         files w' !! q = files w !! q).
Proof.
  induction l as [|p rest IH]; intros w n Hnd Hl R.
  { exists w. subst R. cbn. rewrite Z.add_0_r, app_nil_r.
    split_and!; try reflexivity.
    intros q Hq. now apply elem_of_nil in Hq. }
  apply NoDup_cons in Hnd as [Hp_rest Hnd].
  destruct (Hl p ltac:(left)) as ([f Hf] & Hpng & Hnu).
  cbn [mark_all]. unfold bind. rewrite (mark_round loaded p f w Hf Hnu).
  subst R. rewrite filter_cons.
  destruct (decide (to_mark loaded (locked w) (dirs w) p)) as [Hm|Hm].
  - set (w1 := log (Renamed p (Path.unused p))
                 (set_files (fun m => <[Path.unused p := f]> (delete p m)) w)).
    assert (Hkeep : forall q, q ∈ rest -> files w1 !! q = files w !! q).
    { intros q Hq. destruct (Hl q ltac:(now right)) as (_ & Hqpng & _).
      cbn. rewrite lookup_insert_ne
        by (intros E; symmetry in E; revert E; now apply png_not_unused).
      apply lookup_delete_ne. intros ->. contradiction. }
    destruct (IH w1 (n + 1) Hnd)
      as (w' & Hrun & Hd & Hk & Hi & Hmt & Hr & Ht & H1 & H2).
    { intros q Hq. destruct (Hl q ltac:(now right)) as (Hs & Hqpng & Hqn).
      rewrite (Hkeep q Hq). auto. }
    cbn [dirs locked w1 log set_files] in Hrun, Hd, Hk, Ht, H1, H2.
    set (R := filter (to_mark loaded (locked w) (dirs w)) rest) in *.
    assert (HR : forall q, q ∈ R -> q ∈ rest)
      by (intros q Hq; now apply list_elem_of_filter in Hq).
    exists w'. split.
    { rewrite Hrun. do 2 f_equal. cbn [length]. lia. }
    split_and!; try assumption.
    + rewrite Ht. cbn. now rewrite <- app_assoc.
    + intros q [->|Hq]%elem_of_cons.
      * split.
        -- rewrite H2.
           ++ cbn. rewrite lookup_insert_ne by apply unused_neq.
              apply lookup_delete_eq.
           ++ intros Hq. apply Hp_rest, HR, Hq.
           ++ intros q Hq. now apply png_not_unused.
        -- rewrite H2.
           ++ cbn. rewrite lookup_insert_eq. now symmetry.
           ++ intros Hq. apply HR in Hq.
              destruct (Hl (Path.unused p) ltac:(right; exact Hq))
                as (_ & Hqpng & _).
              exact (png_not_unused _ p Hqpng eq_refl).
           ++ intros q Hq E. apply unused_inj in E as ->.
              apply Hp_rest, HR, Hq.
      * split; [now apply H1|].
        destruct (H1 _ Hq) as [_ ->]. apply Hkeep, HR, Hq.
    + intros q Hq Hnot. rewrite H2.
      * cbn. rewrite lookup_insert_ne
          by (intros E; symmetry in E; revert E; apply Hnot; now left).
        apply lookup_delete_ne. intros ->. apply Hq. now left.
      * intros HqR. apply Hq. now right.
      * intros p' Hp'. apply Hnot. now right.
  - cbv beta iota. rewrite Z.add_0_r.
    destruct (IH w n Hnd)
      as (w' & Hrun & Hd & Hk & Hi & Hmt & Hr & Ht & H1 & H2).
    { intros q Hq. apply Hl. now right. }
    exists w'. split; [exact Hrun|]. split_and!; assumption.
Qed.

End UnusedFacts.

Section UnusedClaims.
Import Host Unused.
Variable o : oracle.

(** The PNG files below a folder, as the scan finds them before ordering. *)
Definition png_files (folder : string) (w : world) : list string :=
  filter (fun p => Path.below folder p && Path.endswith (Path.name p) ".png")
         (map_to_list (files w)).*1.

Lemma png_files_spec (folder : string) (w : world) (p : string) :
  p ∈ png_files folder w ->
  is_Some (files w !! p) /\ Path.endswith p ".png" = true /\
  Path.endswith (Path.name p) ".unused" = false.
Proof.
  unfold png_files. intros [Hp Hin]%list_elem_of_filter.
  apply andb_prop_elim in Hp as [_ Hpng]. apply Is_true_true in Hpng.
  split_and!.
  - apply list_elem_of_fmap in Hin as [[q f] [-> Hin]].
    apply elem_of_map_to_list in Hin. eauto.
  - now apply name_endswith.
  - destruct (Path.endswith (Path.name p) ".unused") eqn:E; [|reflexivity].
    pose proof (endswith_last _ _ "g"%char Hpng eq_refl) as H1.
    pose proof (endswith_last _ _ "d"%char E eq_refl) as H2.
    congruence.
Qed.

Lemma png_files_NoDup (folder : string) (w : world) :
  NoDup (png_files folder w).
Proof. apply NoDup_filter, NoDup_fst_map_to_list. Qed.

(** C9: when the custom folder is switched off, or its path is empty, or
    nothing exists at that path, the operator reports one warning and returns
    [CANCELLED]; the world it leaves differs from the one it found by that
    report only, so no file is renamed and no other state changes. *)
Theorem mark_unused_not_configured (use_custom_folder : bool)
    (custom_folder : string) (w : world) :
  use_custom_folder = false \/ custom_folder = ""
  \/ exists_ custom_folder w = false ->
  exists msg,
    execute o use_custom_folder custom_folder w
    = (CANCELLED, add_report WARNING msg w) /\
    files (add_report WARNING msg w) = files w /\
    dirs (add_report WARNING msg w) = dirs w /\
    images (add_report WARNING msg w) = images w /\
    materials (add_report WARNING msg w) = materials w /\
    trace (add_report WARNING msg w) = trace w /\
    reports (add_report WARNING msg w) = reports w ++ [(WARNING, msg)].
Proof.
  intros H. unfold execute.
  destruct (negb use_custom_folder || String.eqb custom_folder "") eqn:Hc.
  { eexists. split_and!; reflexivity. }
  destruct (exists_ custom_folder w) eqn:Hex.
  - exfalso. apply orb_false_elim in Hc as [Hu He].
    destruct H as [->|[->|H]]; discriminate.
  - eexists. split_and!; reflexivity.
Qed.


End UnusedClaims.

(** * Facts about the node tree *)

Section GraphFacts.
Import Host Graph.


















End GraphFacts.

Section GraphOrder.
Import Host Graph.
Variable o : oracle.

(** The four nodes every material starts with, in order of creation. *)
Definition base_nodes : list node :=
  [ {| bl_idname := ShaderNodeOutputMaterial; location := (300, 0);
       node_image := None; colorspace := None; interpolation := None |};
    {| bl_idname := ShaderNodeBsdfPrincipled; location := (0, 0);
       node_image := None; colorspace := None; interpolation := None |};
    {| bl_idname := ShaderNodeTexCoord; location := (-1000, 0);
       node_image := None; colorspace := None; interpolation := None |};
    {| bl_idname := ShaderNodeMapping; location := (-800, 0);
       node_image := None; colorspace := None; interpolation := None |} ].

Definition base_material (name : string) : material :=
  {| mat_name := name; nodes := base_nodes;
     links := [ {| from_node := 1; from_socket := "BSDF";
                   to_node := 0; to_socket := "Surface" |};
                {| from_node := 2; from_socket := "UV";
                   to_node := 3; to_socket := "Vector" |} ];
     metallic_default := None; roughness_default := None;
     use_backface_culling := false |}.

(** The part of [build] after the four fixed nodes. *)
Definition build_textures (cfg : settings) (extract_path output_folder : string)
    : M building unit :=
  listing <- in_world (listdir o extract_path) ;;
  for_each listing
    (place_texture o cfg extract_path output_folder 0%nat 1%nat 3%nat) ;;;
  (if negb (ambientcg_use_metalness cfg)
   then on_material (set_metallic_default (ambientcg_default_metallic cfg))
   else ret tt) ;;;
  (if negb (ambientcg_use_roughness cfg)
   then on_material (set_roughness_default (ambientcg_default_roughness cfg))
   else ret tt) ;;;
  (if ambientcg_use_backface_culling cfg
   then on_material (set_use_backface_culling true)
   else ret tt).

(** [build] creates the four fixed nodes and their two links, whatever the
    world, and goes on with the directory listing. *)
Lemma build_start (cfg : settings) (extract_path output_folder : string)
    (w : world) (name : string) :
  build o cfg extract_path output_folder (w, new_material name)
  = build_textures cfg extract_path output_folder (w, base_material name).
Proof. reflexivity. Qed.


(** A listing that returned is the scan of the directory, which exists. *)
Lemma listdir_returns (dir : string) (s s' : building) (l : list string) :
  in_world (listdir o dir) s = (Ret l, s') ->
  s' = s /\ l = scan_order o (entries dir s.1) /\ dir ∈ dirs s.1.
Proof.
  unfold in_world, listdir. destruct s as [w m]. cbn.
  destruct (bool_decide (dir ∈ dirs w)) eqn:Hd; [|discriminate].
  apply bool_decide_eq_true in Hd. now intros [= <- <-].
Qed.



End GraphOrder.

(** * Facts about the download *)

Section Keeps.
Import Host Graph.








End Keeps.

Section Download.
Import Host Graph.
Variable o : oracle.









End Download.

Section Obtain.
Import Host Graph.
Variable o : oracle.

(** A handled operation that returns: its body returned, or the handler did. *)
Lemma catch_returns {S A} (m : M S A) (h : string -> M S A) (s s' : S) (a : A) :
  catch m h s = (Ret a, s') ->
  m s = (Ret a, s') \/ exists what s1, m s = (Exc what, s1) /\ h what s1 = (Ret a, s').
Proof.
  unfold catch. destruct (m s) as [[x|what] s1].
  - intros [= <- <-]. now left.
  - intros H. right. eauto.
Qed.



(** Writing archive members keeps a file that is there. *)
Lemma write_members_keeps (dir : string) (ms : list (string * data))
    (m : gmap string file) (p : string) :
  is_Some (m !! p) -> is_Some (write_members dir ms m !! p).
Proof.
  unfold write_members. revert m.
  induction ms as [|e ms IH]; intros m Hm; cbn; [exact Hm|].
  apply IH. rewrite lookup_insert. case_decide; eauto.
Qed.

(** The cache layout of a material. *)
Definition extract_path_of (cfg : settings) : string :=
  Path.join (cache_dir cfg)
    (ambientcg_material_name cfg +:+ "_" +:+ ambientcg_resolution cfg).

Definition zip_path_of (cfg : settings) : string :=
  Path.join (cache_dir cfg)
    (ambientcg_material_name cfg +:+ "_" +:+ ambientcg_resolution cfg
       +:+ ".zip").

Definition url_of (cfg : settings) : string :=
  "https://ambientcg.com/get?file=" +:+ ambientcg_material_name cfg +:+ "_"
    +:+ ambientcg_resolution cfg +:+ "-PNG.zip".



End Obtain.

Section DownloadClaim.
Import Host Graph.
Variable o : oracle.




End DownloadClaim.

(** * The claims on concrete worlds *)

Section Scenarios.
Import Host.

Definition granite : image := {| size := (2048, 2048); px := Original 7 |}.

(** An output folder with four processed textures and a text file.  The moss
    texture is loaded in the scene; the process may not rename the granite
    texture; a directory sits at the flagged name of the slate texture. *)
Definition textures_disk : world :=
  {| files := {[ "/textures/Bark_Color_1.00.png" := Plain (Png rock_color);
                 "/textures/Granite_Color_1.00.png" := Plain (Png granite);
                 "/textures/Moss_Color_1.00.png" := Plain (Png granite);
                 "/textures/Slate_Color_1.00.png" := Plain (Png granite);
                 "/textures/notes.txt" := Plain (Blob 3) ]};
     dirs := {[ "/textures"; "/textures/Slate_Color_1.00.png.unused" ]};
     locked := {[ "/textures/Granite_Color_1.00.png" ]};
     images := ["/textures/Moss_Color_1.00.png"; ""];
     materials := []; blend_filepath := ""; trace := []; reports := [] |}.



Lemma scan_in_place (l : list string) : scan_order plain_host l ≡ₚ l.
Proof. reflexivity. Qed.


Lemma mark_unused_not_configured_witness :
  exists msg,
    Unused.execute plain_host false "/textures" textures_disk
    = (CANCELLED, add_report WARNING msg textures_disk).
Proof.
  destruct (mark_unused_not_configured plain_host false "/textures"
              textures_disk (or_introl eq_refl)) as (msg & Hrun & _).
  exists msg. exact Hrun.
Defined.

(** The folder after the bark texture was flagged. *)
Definition bark : string := "/textures/Bark_Color_1.00.png".

Definition textures_marked : world :=
  Eval vm_compute in
    (Unused.mark plain_host (Unused.loaded_images plain_host textures_disk)
       bark textures_disk).2.

Lemma mark_restore_round_trip_witness :
  exists w2,
    Texture.restore_unused_texture bark textures_marked = (Ret true, w2) /\
    files w2 !! bark = Some (Plain (Png rock_color)) /\
    files w2 !! Path.unused bark = None.
Proof.
  destruct (mark_restore_round_trip plain_host
              (Unused.loaded_images plain_host textures_disk) bark
              (Plain (Png rock_color)) textures_disk textures_marked
              eq_refl ltac:(vm_compute; reflexivity))
    as (_ & w2 & Hrun & Hback & Hgone & _).
  exists w2. split_and!; assumption.
Defined.

(** The world after the colour map was processed at scale 0.75. *)
Definition rock_processed : world :=
  Eval vm_compute in
    (Texture.process_texture plain_host rock_source "/textures" 0.75%float
       false "Rock035" rock_disk).2.

Lemma process_texture_idempotent_witness :
  Texture.process_texture plain_host rock_source "/textures" 0.75%float false
    "Rock035" rock_processed
  = (Ret "/textures/Rock035_Color_0.75.png", rock_processed).
Proof.
  apply (process_texture_idempotent plain_host rock_source "/textures"
           0.75%float false "Rock035" rock_disk).
  vm_compute. reflexivity.
Defined.

End Scenarios.

Section GraphScenarios.
Import Host Graph.

Definition map_file (id : N) : data :=
  Png {| size := (1024, 1024); px := Original id |}.

(** The archive the catalogue serves for [Rock035] at 1K. *)
Definition rock_archive : archive :=
  {| members := [ ("Rock035_1K-PNG_Color.png", map_file 1);
                  ("Rock035_1K-PNG_NormalGL.png", map_file 2);
                  ("Rock035_1K-PNG_Roughness.png", map_file 3);
                  ("Rock035_1K-PNG.usdc", Blob 4) ];
     damaged := None |}.

(** A host that serves the archive and lists directories as stored, and one
    that lists them in the opposite order. *)
Definition catalogue (order : list string -> list string) : oracle :=
  {| relpath := fun p => "//" +:+ p; abspath := fun p => p;
     resolve := fun p => p;
     remote := fun url =>
       if String.eqb url "https://ambientcg.com/get?file=Rock035_1K-PNG.zip"
       then Some rock_archive else None;
     scan_order := order |}.

Definition rock_settings : settings :=
  {| cache_dir := "/cache"; ambientcg_material_name := "Rock035";
     ambientcg_resolution := "1K"; ambientcg_use_custom_folder := true;
     ambientcg_custom_folder := "/textures";
     ambientcg_use_relative_paths := false;
     ambientcg_resize_multiplier := 1%float;
     ambientcg_interpolation := "Linear";
     ambientcg_use_color := true; ambientcg_use_metalness := true;
     ambientcg_use_roughness := true; ambientcg_use_normal := true;
     ambientcg_use_displacement := true;
     ambientcg_default_metallic := 0.5%float;
     ambientcg_default_roughness := 0.5%float;
     ambientcg_use_backface_culling := false |}.

Definition blank_disk : world :=
  {| files := ∅; dirs := ∅; locked := ∅; images := []; materials := [];
     blend_filepath := ""; trace := []; reports := [] |}.

(** The world after a first run: the material is cached. *)
Definition rock_cached : world :=
  Eval vm_compute in (execute (catalogue id) rock_settings blank_disk).2.






End GraphScenarios.

(** * Further properties of the material browser *)

Section BrowserMore.
Import Browser.

(** The collection item the loop builds for an asset that carries its id. *)
Definition item_of (a : asset) : MaterialItem :=
  {| asset_id := default "" (assetId a);
     display_name := default (default "" (assetId a)) (displayName a);
     preview_url := default "" (previewImage a) |}.

(** The thumbnail the loop schedules for an asset, if it names one. *)
Definition job_of (a : asset) : option (string * string) :=
  if String.eqb (default "" (previewImage a)) "" then None
  else Some (default "" (previewImage a), default "" (assetId a)).

(** The assets before the first one that lacks its id. *)
Fixpoint well_formed_prefix (assets : list asset) : list asset :=
  match assets with
  | [] => []
  | a :: rest =>
    match assetId a with
    | Some _ => a :: well_formed_prefix rest
    | None => []
    end
  end.

(** The loop over the assets, in closed form: it handles the assets up to
    the first one without id, and leaves a blank item if there is such a
    one. *)
Lemma add_assets_closed (assets : list asset) :
  forall items dl,
    add_assets assets items dl
    = let good := well_formed_prefix assets in
      let raised := negb (forallb (fun a => bool_decide (is_Some (assetId a)))
                                  assets) in
      (items ++ (item_of <$> good) ++ (if raised then [blank_item] else []),
       dl ++ omap job_of good, raised).
Proof.
  induction assets as [|a rest IH]; intros items dl; cbn.
  { now rewrite !app_nil_r. }
  destruct (assetId a) as [aid|] eqn:Ha; cbn.
  - rewrite IH. cbn. unfold job_of at 2, item_of at 2. rewrite Ha. cbn.
    destruct (String.eqb (default "" (previewImage a)) "");
      cbn; now rewrite <- !app_assoc.
  - now rewrite app_nil_r.
Qed.

Lemma well_formed_prefix_all (assets : list asset) :
  forallb (fun a => bool_decide (is_Some (assetId a))) assets = true ->
  well_formed_prefix assets = assets.
Proof.
  induction assets as [|a rest IH]; cbn; [reflexivity|].
  destruct (assetId a); cbn; [|discriminate]. intros H. now rewrite IH.
Qed.

(** X1: A fetch that finishes replaces the browser's collection by one item per
    asset of the answer, in the answer's order: the asset's id, its display
    name or else its id, and its thumbnail URL or else the empty string.  It
    hands to the thumbnail pool exactly the assets that name a thumbnail. *)
Theorem fetch_lists_assets (fuel : nat) (reset : bool) (w w' : world) :
  fetch_browser_materials fuel reset w = Some (FINISHED, w') ->
  exists n assets,
    head (inbox w) = Some (Payload n assets) /\
    ambientcg_browser_materials (sc w') = item_of <$> assets /\
    length (ambientcg_browser_materials (sc w')) = length assets /\
    preview_jobs w' = preview_jobs w ++ omap job_of assets.
Proof.
  unfold fetch_browser_materials. intros Hrun.
  destruct fuel as [|fuel]; [apply execute_no_fuel in Hrun; discriminate|].
  rewrite execute_ignores_handler in Hrun.
  destruct (execute_finished _ _ _ Hrun) as (n & assets & Hin & Hok & _).
  exists n, assets. split; [exact Hin|].
  cbn in Hok. revert Hrun. unfold execute, assign_goto_page.
  destruct (inbox w) as [|r rest] eqn:Hbox; [discriminate|].
  injection Hin as ->.
  destruct reset; cbn [mbind option_bind inbox set_updating_page with_scene];
    rewrite Hbox; cbn [head default from_option id];
    rewrite add_assets_closed, Hok, (well_formed_prefix_all _ Hok);
    cbn -[Z.div Z.max Z.add Z.sub]; intros [= <-];
    cbn -[Z.div Z.max Z.add Z.sub];
    rewrite app_nil_r, ?length_fmap; split_and!; reflexivity.
Qed.

Lemma fetch_lists_assets_witness :
  (asset_id <$> ambientcg_browser_materials (sc rock_searched))
  = ["Rock035"; "Rock036"].
Proof.
  destruct (fetch_lists_assets 1 true rock_world rock_searched
              (proj1 rock_search_pages))
    as (n & assets & Hin & Hitems & _).
  injection Hin as <- <-. rewrite Hitems. reflexivity.
Defined.





(** X3: Searching always goes back to the first page: whatever the page before
    and whatever the server answers, the operator called with
    [reset_to_first_page] returns, asks for offset 0, and leaves offset 0, the
    page field at 1 and the guard down; if it finishes, the current page is 1. *)
Theorem search_resets_to_first_page (fuel : nat) (w : world) :
  exists st w',
    fetch_browser_materials (S fuel) true w = Some (st, w') /\
    ambientcg_browser_offset (sc w') = 0 /\
    ambientcg_goto_page (sc w') = 1 /\
    _updating_page w' = false /\
    (st = FINISHED -> ambientcg_current_page (sc w') = 1) /\
    exists q, requests w'
              = requests w ++ [{| req_limit := 40; req_offset := 0;
                                  req_query := q |}].
Proof.
  unfold fetch_browser_materials. rewrite execute_ignores_handler.
  unfold execute, assign_goto_page. cbn [mbind option_bind].
  destruct (default Unreachable _) as [|n assets].
  - do 2 eexists. split; [reflexivity|]. cbn.
    split_and!; try reflexivity; [discriminate|eauto].
  - destruct (add_assets assets [] []) as [[items dl] raised].
    destruct raised.
    + do 2 eexists. split; [reflexivity|]. cbn.
      split_and!; try reflexivity; [discriminate|eauto].
    + do 2 eexists. split; [reflexivity|]. cbn.
      split_and!; try reflexivity; eauto.
Qed.






End BrowserMore.

Section PreviewFacts.
Import Host Previews.
Variable o : Previews.oracle.

(** Making a directory that is there changes nothing. *)
Lemma mkdir_again (p : string) (w : world) :
  files w !! p = None -> p ∈ dirs w -> mkdir p w = (Ret tt, w).
Proof.
  intros Hf Hd. unfold mkdir. rewrite Hf.
  rewrite bool_decide_eq_false_2 by (intros [? ?]; discriminate).
  now rewrite bool_decide_eq_true_2.
Qed.

(** What a call of [mkdir] that returned has done. *)
Lemma mkdir_returns (p : string) (w w' : world) (u : unit) :
  mkdir p w = (Ret u, w') ->
  files w' = files w /\ files w !! p = None /\ p ∈ dirs w' /\
  locked w' = locked w /\ (forall q, q ∈ dirs w -> q ∈ dirs w').
Proof.
  unfold mkdir.
  destruct (bool_decide (is_Some (files w !! p))) eqn:Hf; [discriminate|].
  apply bool_decide_eq_false in Hf. apply eq_None_not_Some in Hf.
  destruct (bool_decide (p ∈ dirs w)) eqn:Hd; intros [= _ <-]; cbn.
  - apply bool_decide_eq_true in Hd. auto.
  - split_and!; auto.
    + apply elem_of_union. left. now apply elem_of_singleton.
    + intros q Hq. apply elem_of_union. now right.
Qed.

(** A call of [mkdir] that raised changed nothing. *)
Lemma mkdir_raises (p : string) (w w' : world) (what : string) :
  mkdir p w = (Exc what, w') -> w' = w.
Proof.
  unfold mkdir. destruct (bool_decide _); [now intros [= _ <-]|].
  destruct (bool_decide _); discriminate.
Qed.




(** The three ways [get_preview_icon] ends once the cache folder is there. *)
Lemma get_preview_icon_ready (cache_dir asset_id : string) (w : world)
    (pc : gmap string Z) :
  files w !! cache_dir = None -> cache_dir ∈ dirs w ->
  get_preview_icon o cache_dir asset_id (w, pc)
  = if negb (exists_ (preview_path cache_dir asset_id) w) then (Ret 0, (w, pc))
    else match pc !! asset_id with
         | Some thumb => (Ret thumb, (w, pc))
         | None =>
           (Ret (icon_id o asset_id (preview_path cache_dir asset_id)),
            (w, <[asset_id := icon_id o asset_id
                                (preview_path cache_dir asset_id)]> pc))
         end.
Proof.
  intros Hf Hd. unfold get_preview_icon, catch, bind, on_disk. cbn [fst snd].
  rewrite (mkdir_again _ _ Hf Hd). cbn [fst snd]. unfold get. cbn [fst snd].
  destruct (exists_ _ w); cbn [negb fst snd]; [|reflexivity].
  destruct (pc !! asset_id); reflexivity.
Qed.

(** [get_preview_icon] returns, touches no file, and keeps the icons the
    collection holds. *)
Lemma get_preview_icon_steps (cache_dir asset_id : string) (s : gallery) :
  exists i s',
    get_preview_icon o cache_dir asset_id s = (Ret i, s') /\
    files s'.1 = files s.1 /\
    (forall k v, s.2 !! k = Some v -> s'.2 !! k = Some v).
Proof.
  destruct s as [w pc].
  destruct (mkdir cache_dir w) as [[[]|what] w1] eqn:Hm.
  - destruct (mkdir_returns _ _ _ _ Hm) as (Hf & Hn & Hd & _).
    assert (Hrun : get_preview_icon o cache_dir asset_id (w, pc)
                   = get_preview_icon o cache_dir asset_id (w1, pc)).
    { unfold get_preview_icon, catch, bind, on_disk. cbn [fst snd].
      rewrite Hm. rewrite mkdir_again by congruence. reflexivity. }
    rewrite Hrun, get_preview_icon_ready by congruence.
    destruct (exists_ _ w1); cbn [negb].
    + destruct (pc !! asset_id) as [t|] eqn:Hpc.
      * do 2 eexists. split; [reflexivity|]. cbn. auto.
      * do 2 eexists. split; [reflexivity|]. cbn. split; [exact Hf|].
        intros k v Hk. rewrite lookup_insert_ne; [exact Hk|congruence].
    + do 2 eexists. split; [reflexivity|]. cbn. auto.
  - apply mkdir_raises in Hm as Hw. subst w1.
    exists 0, (w, pc). split; [|cbn; auto].
    unfold get_preview_icon, catch, bind, on_disk. cbn [fst snd].
    now rewrite Hm.
Qed.

(** X7: [get_preview_icon] never raises and loads a thumbnail at most once: after
    any call, the same call again returns the same icon and changes nothing.
    It writes no file, gives 0 when there is no thumbnail on disk, and leaves
    every other name of the collection alone. *)
Theorem get_preview_icon_cached (cache_dir asset_id : string) (s : gallery) :
  exists i s',
    get_preview_icon o cache_dir asset_id s = (Ret i, s') /\
    get_preview_icon o cache_dir asset_id s' = (Ret i, s') /\
    files s'.1 = files s.1 /\
    (exists_ (preview_path cache_dir asset_id) s'.1 = false ->
     i = 0 /\ s'.2 = s.2) /\
    (forall k, k <> asset_id -> s'.2 !! k = s.2 !! k).
Proof.
  destruct s as [w pc].
  destruct (mkdir cache_dir w) as [[[]|what] w1] eqn:Hm.
  - destruct (mkdir_returns _ _ _ _ Hm) as (Hf & Hn & Hd & _).
    assert (Hrun : get_preview_icon o cache_dir asset_id (w, pc)
                   = get_preview_icon o cache_dir asset_id (w1, pc)).
    { unfold get_preview_icon, catch, bind, on_disk. cbn [fst snd].
      rewrite Hm. rewrite mkdir_again by congruence. reflexivity. }
    rewrite Hrun, get_preview_icon_ready by congruence.
    destruct (exists_ (preview_path cache_dir asset_id) w1) eqn:Hex;
      cbn [negb].
    + destruct (pc !! asset_id) as [t|] eqn:Hpc.
      * do 2 eexists. split; [reflexivity|].
        rewrite get_preview_icon_ready by congruence. rewrite Hex, Hpc.
        cbn. split_and!; auto. congruence.
      * do 2 eexists. split; [reflexivity|].
        rewrite get_preview_icon_ready by congruence.
        rewrite Hex, lookup_insert_eq.
        cbn. split_and!; auto; [congruence|].
        intros k Hk. now rewrite lookup_insert_ne by congruence.
    + do 2 eexists. split; [reflexivity|].
      rewrite get_preview_icon_ready by congruence. rewrite Hex.
      cbn. split_and!; auto.
  - apply mkdir_raises in Hm as Hw. subst w1.
    assert (Hrun : get_preview_icon o cache_dir asset_id (w, pc)
                   = (Ret 0, (w, pc))).
    { unfold get_preview_icon, catch, bind, on_disk. cbn [fst snd].
      now rewrite Hm. }
    exists 0, (w, pc). rewrite Hrun. cbn. split_and!; auto.
Qed.

(** The loop of the enumeration returns one item per material, in order,
    numbered from [i] on; an item without thumbnail URL, or any item when
    previews are not available, has icon 0.  No file is written and the
    collection keeps its icons. *)
Lemma enum_from_items (cache_dir : string) (available : bool)
    (materials : list Browser.MaterialItem) :
  forall (i : nat) (acc : list enum_item) (s : gallery),
    exists items s',
      enum_from o cache_dir available i materials acc s
      = (Ret (acc ++ items), s') /\
      identifier <$> items = Browser.asset_id <$> materials /\
      name <$> items = Browser.display_name <$> materials /\
      number <$> items = seq i (length materials) /\
      Forall2 (fun m e =>
                 available && negb (String.eqb (Browser.preview_url m) "")
                 = false -> icon e = 0) materials items /\
      files s'.1 = files s.1 /\
      (forall k v, s.2 !! k = Some v -> s'.2 !! k = Some v).
Proof.
  induction materials as [|m rest IH]; intros i acc s.
  { exists [], s. cbn. rewrite app_nil_r. split_and!; auto. }
  cbn [enum_from]. unfold bind.
  destruct (available && negb (String.eqb (Browser.preview_url m) "")) eqn:Hc.
  - destruct (get_preview_icon_steps cache_dir (Browser.asset_id m) s)
      as (ic & s1 & Hrun & Hf & Hk).
    rewrite Hrun.
    destruct (IH (S i) (acc ++ [{| identifier := Browser.asset_id m;
                                   name := Browser.display_name m;
                                   description := ""; icon := ic;
                                   number := i |}]) s1)
      as (items & s' & Hrest & Hid & Hnm & Hnum & Hic & Hf' & Hk').
    exists ({| identifier := Browser.asset_id m;
               name := Browser.display_name m;
               description := ""; icon := ic; number := i |} :: items), s'.
    rewrite Hrest, <- app_assoc. cbn.
    split_and!; try congruence; auto.
    constructor; [intros E; rewrite Hc in E; discriminate|exact Hic].
  - unfold ret at 1.
    destruct (IH (S i) (acc ++ [{| identifier := Browser.asset_id m;
                                   name := Browser.display_name m;
                                   description := ""; icon := 0;
                                   number := i |}]) s)
      as (items & s' & Hrest & Hid & Hnm & Hnum & Hic & Hf' & Hk').
    exists ({| identifier := Browser.asset_id m;
               name := Browser.display_name m;
               description := ""; icon := 0; number := i |} :: items), s'.
    rewrite Hrest, <- app_assoc. cbn.
    split_and!; try congruence; auto.
Qed.

(** X8: The preview enumeration never raises and is never empty.  Without a
    context, without a preview collection or without materials it is the
    single placeholder item.  Otherwise it has one item per material of the
    browser, in order: the asset's id as identifier, its display name, and
    the numbers 0, 1, 2, ...; items without thumbnail URL have icon 0.  It
    writes no file. *)
Theorem material_previews_enum_items (cache_dir : string) (available : bool)
    (context : option (list Browser.MaterialItem))
    (pcoll : option (gmap string Z)) (w : world) :
  exists items w' pcoll',
    material_previews_enum o cache_dir available context pcoll w
    = (Ret items, (w', pcoll')) /\
    items <> [] /\
    files w' = files w /\
    match context, pcoll with
    | Some (m :: rest), Some _ =>
      identifier <$> items = Browser.asset_id <$> (m :: rest) /\
      name <$> items = Browser.display_name <$> (m :: rest) /\
      number <$> items = seq 0 (length (m :: rest)) /\
      Forall2 (fun m e => Browser.preview_url m = "" -> icon e = 0)
              (m :: rest) items
    | _, _ => items = no_materials /\ w' = w /\ pcoll' = pcoll
    end.
Proof.
  unfold material_previews_enum.
  destruct context as [[|m rest]|]; [| |].
  - destruct pcoll; do 3 eexists; (split; [reflexivity|]);
      split_and!; auto; discriminate.
  - destruct pcoll as [pc|].
    2:{ do 3 eexists. split; [reflexivity|].
        split_and!; auto; discriminate. }
    cbn [length]. rewrite bool_decide_eq_false_2 by discriminate.
    destruct (enum_from_items cache_dir available (m :: rest) 0 [] (w, pc))
      as (items & [w' pc'] & Hrun & Hid & Hnm & Hnum & Hic & Hf & _).
    rewrite Hrun. cbn [fst snd app] in *.
    exists items, w', (Some pc'). split; [reflexivity|].
    split_and!; auto.
    + intros ->. discriminate.
    + eapply Forall2_impl; [exact Hic|]. cbn. intros x y Hxy Hurl.
      apply Hxy. rewrite Hurl. cbn. apply andb_false_r.
  - do 3 eexists. split; [reflexivity|]. split_and!; auto; discriminate.
Qed.

End PreviewFacts.

(** * Further properties of texture processing *)

Section TextureMore.
Import Host Texture.
Variable o : Host.oracle.


Lemma insert_last_block {A} (l : list A) (a b : A) :
  <[length l := b]> (l ++ [a]) = l ++ [b].
Proof.
  induction l as [|x l IH]; [reflexivity|].
  cbn [length app]. change (<[S (length l) := b]> (x :: (l ++ [a])))
    with (x :: <[length l := b]> (l ++ [a])). now rewrite IH.
Qed.

(** X10: When the output cannot be written, [process_texture] raises after it has
    loaded the source: no file is written, and the temporary image stays in
    [bpy.data.images], with the output path as its file path. *)
Theorem process_texture_save_fails (src folder : string) (r : float)
    (rel : bool) (name : string) (w : world) (img : image) (nw nh : Z) :
  let out := Path.join folder (output_name src r name) in
  exists_ (Path.unused src) w = false ->
  exists_ (Path.unused out) w = false ->
  exists_ out w = false ->
  out ∈ locked w ->
  files w !! locate o src = Some (Plain (Png img)) ->
  Num.py_int (PrimFloat.mul (Num.of_int (size img).1) r) = Some nw ->
  Num.py_int (PrimFloat.mul (Num.of_int (size img).2) r) = Some nh ->
  exists what w1,
    process_texture o src folder r rel name w = (Exc what, w1) /\
    files w1 = files w /\
    images w1 = images w ++ [out] /\
    trace w1 = trace w ++ [Loaded src].
Proof.
  intros out Hs Ho Hex Hlock Hsrc Hnw Hnh.
  unfold process_texture, bind. fold out.
  rewrite (restore_nothing _ _ Hs), (restore_nothing _ _ Ho).
  unfold get at 1. rewrite Hex.
  unfold images_load. rewrite Hsrc. cbn [fst snd].
  unfold scaled. rewrite Hnw, Hnh. unfold ret at 1 2.
  unfold set_filepath_raw, modify. unfold image_save.
  cbn [images set_images log].
  destruct (renamed_block (images w) src out) as [Hlk _]. rewrite Hlk.
  cbn [locked dirs set_images log].
  rewrite (bool_decide_eq_true_2 _ Hlock). cbn [orb].
  do 2 eexists. split; [reflexivity|]. cbn [files images trace set_images log].
  split_and!; try reflexivity. apply insert_last_block.
Qed.

End TextureMore.

Section TextureMoreScenarios.
Import Host Texture.


(** The colour map with an output folder that cannot be written. *)
Definition rock_readonly : world :=
  {| files := files rock_disk; dirs := dirs rock_disk;
     locked := {[ "/textures/Rock035_Color_1.00.png" ]};
     images := []; materials := []; blend_filepath := "";
     trace := []; reports := [] |}.

Lemma process_texture_save_fails_witness :
  exists what w1,
    process_texture plain_host rock_source "/textures" 1%float false "Rock035"
      rock_readonly = (Exc what, w1) /\
    images w1 = ["/textures/Rock035_Color_1.00.png"].
Proof.
  destruct (process_texture_save_fails plain_host rock_source "/textures"
              1%float false "Rock035" rock_readonly rock_color 1001 999)
    as (what & w1 & Hrun & _ & Hi & _);
    try (vm_compute; reflexivity).
  exists what, w1. split; [exact Hrun|]. rewrite Hi. vm_compute. reflexivity.
Defined.

End TextureMoreScenarios.

(** * Further properties of marking unused textures *)

Section UnusedMore.
Import Host Unused.
Variable o : Host.oracle.

Lemma png_files_elem (folder : string) (w : world) (p : string) :
  p ∈ png_files folder w <->
  is_Some (files w !! p) /\ Path.below folder p = true /\
  Path.endswith (Path.name p) ".png" = true.
Proof.
  unfold png_files. rewrite list_elem_of_filter, andb_True, !Is_true_true.
  rewrite list_elem_of_fmap. split.
  - intros [[Hb Hn] ([q f] & -> & Hin)].
    apply elem_of_map_to_list in Hin. eauto.
  - intros ([f Hf] & Hb & Hn). split; [auto|].
    exists (p, f). split; [reflexivity|]. now apply elem_of_map_to_list.
Qed.


(** A run of the operator on a configured folder, in terms of the loop. *)
Lemma mark_unused_run (folder : string) (w : world) :
  (forall l, scan_order o l ≡ₚ l) ->
  folder <> "" ->
  exists_ folder w = true ->
  let R := filter (to_mark o (loaded_images o w) (locked w) (dirs w))
                  (png_files folder w) in
  exists w',
    execute o true folder w
    = (FINISHED,
       add_report INFO
         ("Marked " +:+ pretty (Z.of_nat (length R)) +:+ " unused textures") w')
    /\ dirs w' = dirs w /\ locked w' = locked w /\ images w' = images w /\
    reports w' = reports w /\
    trace w' = trace w
               ++ ((fun p => Renamed p (Path.unused p))
                     <$> filter (to_mark o (loaded_images o w) (locked w)
                                           (dirs w))
                                (rglob_png o folder w)) /\
    (forall p, p ∈ R ->
       files w' !! p = None /\ files w' !! Path.unused p = files w !! p) /\
    (forall q, q ∉ R -> (forall p, p ∈ R -> q <> Path.unused p) ->
       files w' !! q = files w !! q).
Proof.
  intros Hperm Hne Hex R.
  assert (HF : rglob_png o folder w ≡ₚ png_files folder w) by apply Hperm.
  destruct (mark_all_spec o (loaded_images o w) (rglob_png o folder w) w 0)
    as (w' & Hrun & Hd & Hk & Hi & Hmt & Hr & Ht & H1 & H2).
  { rewrite HF. apply png_files_NoDup. }
  { intros p Hp. rewrite HF in Hp. now apply png_files_spec in Hp. }
  assert (HR : filter (to_mark o (loaded_images o w) (locked w) (dirs w))
                      (rglob_png o folder w) ≡ₚ R)
    by (unfold R; now rewrite HF).
  exists w'. split.
  { unfold execute. cbn [negb orb].
    apply String.eqb_neq in Hne. rewrite Hne, Hex. cbn [negb].
    rewrite Hrun. rewrite HR. reflexivity. }
  split_and!; try assumption.
  - intros p Hp. apply H1. now rewrite HR.
  - intros q Hq Hnot. apply H2; [now rewrite HR|].
    intros p Hp. apply Hnot. now rewrite <- HR.
Qed.


(** X12: Marking twice marks nothing new: after a run that finished, a second run
    (same loaded images) finishes, renames nothing, reports a count of 0 and
    leaves every file where it is. *)
Theorem mark_unused_twice (folder : string) (w w1 : world) :
  (forall l, scan_order o l ≡ₚ l) ->
  folder ∈ dirs w ->
  execute o true folder w = (FINISHED, w1) ->
  exists w2,
    execute o true folder w1 = (FINISHED, w2) /\
    files w2 = files w1 /\
    trace w2 = trace w1 /\
    reports w2 = reports w1 ++ [(INFO, "Marked 0 unused textures")].
Proof.
  intros Hperm Hdir Hrun.
  assert (Hex : exists_ folder w = true).
  { unfold exists_. rewrite (bool_decide_eq_true_2 _ Hdir). apply orb_true_r. }
  destruct (String.eqb_spec folder "") as [->|Hne].
  { revert Hrun. unfold execute. cbn. discriminate. }
  destruct (mark_unused_run folder w Hperm Hne Hex)
    as (w' & Hrun' & Hd & Hl & Hi & _ & _ & H1 & H2).
  rewrite Hrun' in Hrun. injection Hrun as <-.
  set (msg := "Marked " +:+ _ +:+ " unused textures").
  assert (Hex1 : exists_ folder (add_report INFO msg w') = true).
  { unfold exists_. cbn [dirs files add_report]. rewrite Hd.
    rewrite (bool_decide_eq_true_2 _ Hdir). apply orb_true_r. }
  destruct (mark_unused_run folder (add_report INFO msg w') Hperm Hne Hex1)
    as (w2 & Hrun2 & _ & _ & _ & Hr2 & Ht2 & _ & H2').
  cbn [dirs locked files images reports trace add_report] in Hrun2, Hr2, Ht2, H2'.
  assert (Hloaded : loaded_images o (add_report INFO msg w') = loaded_images o w)
    by (unfold loaded_images; cbn [images add_report]; now rewrite Hi).
  rewrite Hloaded, Hd, Hl in Hrun2, Ht2, H2'.
  assert (Hnone : forall l, (forall p, p ∈ l -> p ∈ png_files folder (add_report INFO msg w')) ->
            filter (to_mark o (loaded_images o w) (locked w) (dirs w)) l = []).
  { intros l Hl'.
    destruct (filter (to_mark o (loaded_images o w) (locked w) (dirs w)) l)
      as [|p rest] eqn:Hf; [reflexivity|exfalso].
    assert (Hp : p ∈ filter (to_mark o (loaded_images o w) (locked w)
                                    (dirs w)) l)
      by (rewrite Hf; apply elem_of_cons; now left).
    apply list_elem_of_filter in Hp as [Hmark Hp].
    apply Hl' in Hp.
    apply png_files_elem in Hp as (Hsome & Hb & Hn).
    cbn [files add_report] in Hsome.
    assert (Hpng : Path.endswith p ".png" = true) by now apply name_endswith.
    destruct (decide (p ∈ filter (to_mark o (loaded_images o w) (locked w)
                                          (dirs w)) (png_files folder w)))
      as [Hin|Hout].
    - destruct (H1 p Hin) as [Hgone _]. rewrite Hgone in Hsome.
      now destruct Hsome.
    - apply Hout. apply list_elem_of_filter. split; [exact Hmark|].
      apply png_files_elem. split_and!; auto.
      rewrite <- (H2 p Hout); [exact Hsome|].
      intros q _. now apply png_not_unused. }
  rewrite (Hnone (png_files folder (add_report INFO msg w'))) in Hrun2, H2'
    by auto.
  rewrite (Hnone (rglob_png o folder (add_report INFO msg w'))) in Ht2.
  2:{ intros p Hp. unfold rglob_png in Hp. now rewrite Hperm in Hp. }
  cbn in Hrun2, Ht2.
  eexists. split; [exact Hrun2|]. cbn [files trace reports add_report].
  split_and!.
  - apply map_eq. intros q. apply H2'; [apply not_elem_of_nil|].
    intros p Hp. now apply elem_of_nil in Hp.
  - now rewrite Ht2, app_nil_r.
  - now rewrite Hr2.
Qed.

End UnusedMore.

Section UnusedMoreScenarios.
Import Host Unused.


(** The folder of textures after a first run of the operator. *)
Definition textures_swept : world :=
  Eval vm_compute in (execute plain_host true "/textures" textures_disk).2.

Lemma mark_unused_twice_witness :
  exists w2,
    execute plain_host true "/textures" textures_swept = (FINISHED, w2) /\
    files w2 = files textures_swept.
Proof.
  destruct (mark_unused_twice plain_host "/textures" textures_disk
              textures_swept scan_in_place)
    as (w2 & Hrun & Hfiles & _).
  - apply elem_of_union. left. now apply elem_of_singleton.
  - vm_compute. reflexivity.
  - exists w2. split; assumption.
Defined.

End UnusedMoreScenarios.

(** * Further properties of fetching a material *)

Section Steady.
Import Host.

(** What an operator leaves in the blend file and shows to the user. *)
Definition blend (w : world) : list material * list string * list report :=
  (materials w, images w, reports w).

(** An operation that leaves the blend file and the reports alone, whether
    it returns or raises. *)
Definition quiet {A} (m : M world A) : Prop :=
  forall w r w', m w = (r, w') -> blend w' = blend w.

Lemma quiet_ret {A} (x : A) : quiet (ret x).
Proof. now intros w r w' [= _ <-]. Qed.

Lemma quiet_bind {A B} (m : M world A) (k : A -> M world B) :
  quiet m -> (forall a, quiet (k a)) -> quiet (bind m k).
Proof.
  intros Hm Hk w r w'. unfold bind.
  destruct (m w) as [[a|what] w1] eqn:H1.
  - intros H. rewrite (Hk _ _ _ _ H). exact (Hm _ _ _ H1).
  - intros [= _ <-]. exact (Hm _ _ _ H1).
Qed.

Lemma quiet_mkdir (p : string) : quiet (mkdir p).
Proof.
  intros w r w'. unfold mkdir.
  destruct (bool_decide (is_Some (files w !! p))); [now intros [= _ <-]|].
  destruct (bool_decide (p ∈ dirs w)); now intros [= _ <-].
Qed.

Lemma quiet_urlretrieve (o : oracle) (url path : string) :
  quiet (urlretrieve o url path).
Proof.
  intros w r w'. unfold urlretrieve.
  destruct (remote o url); [destruct (_ || _)|]; now intros [= _ <-].
Qed.

Lemma quiet_extractall (path dir : string) : quiet (extractall path dir).
Proof.
  intros w r w'. unfold extractall.
  destruct (files w !! path) as [[d|a]|]; try now intros [= _ <-].
  destruct (damaged a); destruct (bool_decide _); now intros [= _ <-].
Qed.

Lemma quiet_unlink (p : string) : quiet (unlink p).
Proof.
  intros w r w'. unfold unlink.
  destruct (files w !! p); [destruct (bool_decide _)|]; now intros [= _ <-].
Qed.

(** Making a directory takes no path away. *)
Lemma mkdir_keeps_exists (p q : string) (w : world) :
  exists_ q w = true -> exists_ q (mkdir p w).2 = true.
Proof.
  unfold mkdir.
  destruct (bool_decide (is_Some (files w !! p))); [auto|].
  destruct (bool_decide (p ∈ dirs w)); [auto|].
  unfold exists_. cbn [snd files dirs log set_dirs].
  rewrite !orb_true_iff, !bool_decide_eq_true, elem_of_union. tauto.
Qed.

(** A call of [mkdir] raises only over a regular file. *)
Lemma mkdir_blocked (p : string) (w w' : world) (what : string) :
  mkdir p w = (Exc what, w') -> is_Some (files w !! p).
Proof.
  unfold mkdir.
  destruct (bool_decide (is_Some (files w !! p))) eqn:Hf.
  - intros _. now apply bool_decide_eq_true in Hf.
  - destruct (bool_decide (p ∈ dirs w)); discriminate.
Qed.

(** The directories after a call of [mkdir]. *)
Lemma mkdir_dirs (p q : string) (w : world) :
  q ∈ dirs (mkdir p w).2 -> q ∈ dirs w \/ q = p.
Proof.
  unfold mkdir.
  destruct (bool_decide (is_Some (files w !! p))); [auto|].
  destruct (bool_decide (p ∈ dirs w)); [auto|].
  cbn [snd dirs log set_dirs]. rewrite elem_of_union, elem_of_singleton. tauto.
Qed.

End Steady.

Section GraphMore.
Import Host Graph.
Variable o : oracle.

(** The part of [obtain] that runs when the material is not cached. *)
Definition download (cfg : settings) (output_folder : string)
    : M world (option (string * string)) :=
  downloaded <-
    catch (urlretrieve o (url_of cfg) (zip_path_of cfg) ;;; ret true)
          (fun _ =>
             modify (add_report ERROR "Failed to download file") ;;;
             ret false) ;;
  if negb downloaded then ret None
  else
    extracted <-
      catch (extractall (zip_path_of cfg) (extract_path_of cfg) ;;;
             unlink (zip_path_of cfg) ;;;
             ret true)
            (fun _ =>
               modify (add_report ERROR "Failed to extract zip file") ;;;
               ret false) ;;
    if negb extracted then ret None
    else ret (Some (extract_path_of cfg, output_folder)).

(** Whether the custom folder is in use, and the folder the textures are
    written to. *)
Definition custom_used (cfg : settings) : bool :=
  ambientcg_use_custom_folder cfg
  && negb (String.eqb (ambientcg_custom_folder cfg) "").

Definition output_folder_of (cfg : settings) : string :=
  if custom_used cfg then ambientcg_custom_folder cfg else extract_path_of cfg.

(** The first steps of [obtain]: the cache folder and the custom folder. *)
Definition make_folders (cfg : settings) : M world unit :=
  mkdir (cache_dir cfg) ;;;
  (if custom_used cfg then mkdir (ambientcg_custom_folder cfg) else ret tt).

(** [obtain] makes the folders and then either finds the material in the
    cache or downloads it. *)
Lemma obtain_unfold (cfg : settings) (w : world) :
  obtain o cfg w
  = match make_folders cfg w with
    | (Ret _, wb) =>
      if exists_ (extract_path_of cfg) wb
      then (Ret (Some (extract_path_of cfg, output_folder_of cfg)),
            add_report INFO
              ("Using cached material: " +:+ ambientcg_material_name cfg
                 +:+ "_" +:+ ambientcg_resolution cfg) wb)
      else download cfg (output_folder_of cfg) wb
    | (Exc what, wb) => (Exc what, wb)
    end.
Proof.
  unfold obtain, make_folders, bind, output_folder_of, custom_used.
  fold (extract_path_of cfg) (zip_path_of cfg) (url_of cfg).
  destruct (mkdir (cache_dir cfg) w) as [[[]|what] wa]; [|reflexivity].
  destruct (ambientcg_use_custom_folder cfg
            && negb (String.eqb (ambientcg_custom_folder cfg) "")).
  - destruct (mkdir (ambientcg_custom_folder cfg) wa) as [[[]|what] wb];
      [|reflexivity].
    unfold ret, get. cbn beta iota.
    destruct (exists_ (extract_path_of cfg) wb); reflexivity.
  - unfold ret, get. cbn beta iota.
    destruct (exists_ (extract_path_of cfg) wa); reflexivity.
Qed.

(** Making the folders changes neither the files nor the blend file, takes
    no path away, and adds at most the two folders.  It raises only over a
    regular file in the place of a folder. *)
Lemma make_folders_spec (cfg : settings) (w wb : world) (r : outcome unit) :
  make_folders cfg w = (r, wb) ->
  blend wb = blend w /\ files wb = files w /\ locked wb = locked w /\
  (forall q, exists_ q w = true -> exists_ q wb = true) /\
  (forall q, q ∈ dirs wb ->
     q ∈ dirs w \/ q = cache_dir cfg \/
     (custom_used cfg = true /\ q = ambientcg_custom_folder cfg)) /\
  (forall what, r = Exc what ->
     is_Some (files w !! cache_dir cfg) \/
     (custom_used cfg = true /\
      is_Some (files w !! ambientcg_custom_folder cfg))).
Proof.
  assert (Hmk : forall p w0,
            blend (mkdir p w0).2 = blend w0 /\
            files (mkdir p w0).2 = files w0 /\
            locked (mkdir p w0).2 = locked w0).
  { intros p w0. unfold mkdir.
    destruct (bool_decide (is_Some (files w0 !! p))); [auto|].
    destruct (bool_decide (p ∈ dirs w0)); auto. }
  unfold make_folders, bind.
  destruct (Hmk (cache_dir cfg) w) as (Hb1 & Hf1 & Hl1).
  pose proof (mkdir_keeps_exists (cache_dir cfg)) as Hk1.
  pose proof (fun q => mkdir_dirs (cache_dir cfg) q w) as Hd1.
  destruct (mkdir (cache_dir cfg) w) as [[[]|what] wa] eqn:Hm1; cbn [snd] in *.
  2:{ intros [= <- <-]. split_and!; auto.
      - intros q Hq. specialize (Hk1 q w Hq). now rewrite Hm1 in Hk1.
      - intros q Hq%Hd1. tauto.
      - intros _ _. left. exact (mkdir_blocked _ _ _ _ Hm1). }
  destruct (custom_used cfg).
  - destruct (Hmk (ambientcg_custom_folder cfg) wa) as (Hb2 & Hf2 & Hl2).
    pose proof (mkdir_keeps_exists (ambientcg_custom_folder cfg)) as Hk2.
    pose proof (fun q => mkdir_dirs (ambientcg_custom_folder cfg) q wa) as Hd2.
    destruct (mkdir (ambientcg_custom_folder cfg) wa) as [r2 wb2] eqn:Hm2.
    cbn [snd] in *.
    intros Heq.
    assert (Heq' : r = r2 /\ wb = wb2).
    { destruct r2 as [[]|?]; injection Heq as <- <-; auto. }
    destruct Heq' as [-> ->].
    split_and!; try congruence.
    + intros q Hq. specialize (Hk1 q w Hq). rewrite Hm1 in Hk1.
      specialize (Hk2 q wa Hk1). now rewrite Hm2 in Hk2.
    + intros q [Hq| ->]%Hd2; [|auto]. apply Hd1 in Hq. tauto.
    + intros what ->. right. split; [reflexivity|].
      rewrite <- Hf1. exact (mkdir_blocked _ _ _ _ Hm2).
  - intros [= <- <-]. split_and!; auto.
    + intros q Hq. specialize (Hk1 q w Hq). now rewrite Hm1 in Hk1.
    + intros q Hq%Hd1. tauto.
    + discriminate.
Qed.

(** What a download that ends without the folders has done: it reported one
    error and left the blend file alone. *)
Lemma download_none (cfg : settings) (outf : string) (w w' : world) :
  download cfg outf w = (Ret None, w') ->
  materials w' = materials w /\ images w' = images w /\
  exists msg, reports w' = reports w ++ [(ERROR, msg)].
Proof.
  unfold download. intros H.
  split_run H as downloaded wc Hdl.
  apply catch_returns in Hdl as [Hdl|(what & s1 & Hraise & Hh)].
  - split_run Hdl as u wd Hurl. end_run Hdl. cbn [negb] in H.
    pose proof (quiet_urlretrieve _ _ _ _ _ _ Hurl) as Hq1.
    split_run H as extracted we Hext.
    apply catch_returns in Hext as [Hext|(what & s1 & Hraise & Hh)].
    + split_run Hext as u3 wf Hx. split_run Hext as u4 wg Hun. end_run Hext.
      cbn [negb] in H. discriminate H.
    + assert (Hq2 : blend s1 = blend wd).
      { revert Hraise. apply quiet_bind; [apply quiet_extractall|].
        intros _. apply quiet_bind; [apply quiet_unlink|].
        intros _. apply quiet_ret. }
      split_run Hh as u5 s2 Hm. end_run Hm. end_run Hh.
      cbn [negb] in H. apply ret_returns in H as [_ ->].
      unfold blend in *. cbn [materials images reports add_report].
      split_and!; [congruence..|].
      eexists. f_equal. congruence.
  - assert (Hq1 : blend s1 = blend w).
    { revert Hraise. apply quiet_bind; [apply quiet_urlretrieve|].
      intros _. apply quiet_ret. }
    split_run Hh as u s2 Hm. end_run Hm. end_run Hh.
    cbn [negb] in H. apply ret_returns in H as [_ ->].
    unfold blend in *. cbn [materials images reports add_report].
    split_and!; [congruence..|].
    eexists. f_equal. congruence.
Qed.

(** X13: A cancelled run created nothing: the operator gives up only when the
    material was not cached and the download or the extraction failed; it
    then adds no material and no image, and its only report is an error. *)
Theorem fetch_and_create_cancelled (cfg : settings) (w w' : world) :
  execute o cfg w = (CANCELLED, w') ->
  exists_ (extract_path_of cfg) w = false /\
  materials w' = materials w /\ images w' = images w /\
  exists msg, reports w' = reports w ++ [(ERROR, msg)].
Proof.
  unfold execute.
  destruct (obtain o cfg w) as [[[[ep outf]|]|what] w1] eqn:Hob;
    try discriminate.
  { destruct (build _ _ _ _ _) as [[u|what] [w2 m]]; discriminate. }
  intros [= <-].
  rewrite obtain_unfold in Hob.
  destruct (make_folders cfg w) as [[[]|what] wb] eqn:Hmf; [|discriminate].
  destruct (make_folders_spec _ _ _ _ Hmf) as (Hb & _ & _ & Hmono & _).
  destruct (exists_ (extract_path_of cfg) wb) eqn:Hex; [discriminate|].
  split.
  { destruct (exists_ (extract_path_of cfg) w) eqn:Hw; [|reflexivity].
    apply Hmono in Hw. congruence. }
  destruct (download_none _ _ _ _ Hob) as (Hm & Hi & msg & Hr).
  unfold blend in Hb. injection Hb as Hbm Hbi Hbr.
  split_and!; [congruence..|]. exists msg. congruence.
Qed.







(** ** The material a finished run leaves *)









(** A run of [obtain] that returns the folders has left the materials and
    the images alone. *)
Lemma obtain_blend (cfg : settings) (w w1 : world) (ep outf : string) :
  obtain o cfg w = (Ret (Some (ep, outf)), w1) ->
  materials w1 = materials w /\ images w1 = images w /\
  ep = extract_path_of cfg.
Proof.
  rewrite obtain_unfold.
  destruct (make_folders cfg w) as [[[]|what] wb] eqn:Hmf; [|discriminate].
  destruct (make_folders_spec _ _ _ _ Hmf) as (Hb & _).
  injection Hb as Hbm Hbi _.
  destruct (exists_ (extract_path_of cfg) wb).
  { intros H. injection H as H1 H2 H3. subst ep w1. cbn. auto. }
  unfold download. intros H.
  split_run H as downloaded wc Hdl.
  apply catch_returns in Hdl as [Hdl|(what & s1 & _ & Hh)].
  2:{ split_run Hh as u s2 Hm. end_run Hm. end_run Hh.
      cbn [negb] in H. discriminate H. }
  split_run Hdl as u2 wd Hurl. end_run Hdl. cbn [negb] in H.
  pose proof (quiet_urlretrieve _ _ _ _ _ _ Hurl) as Hq1.
  split_run H as extracted we Hext.
  apply catch_returns in Hext as [Hext|(what & s1 & _ & Hh)].
  2:{ split_run Hh as u s2 Hm. end_run Hm. end_run Hh.
      cbn [negb] in H. discriminate H. }
  assert (Hq2 : blend we = blend wd).
  { revert Hext. apply quiet_bind; [apply quiet_extractall|].
    intros _. apply quiet_bind; [apply quiet_unlink|].
    intros _. apply quiet_ret. }
  split_run Hext as u3 wf Hx. split_run Hext as u4 wg Hun. end_run Hext.
  cbn [negb] in H. apply ret_returns in H as [[= -> ->] ->].
  injection Hq1 as Hq1 Hq1' _. injection Hq2 as Hq2 Hq2' _.
  split_and!; [congruence..|reflexivity].
Qed.


(** X17: With every channel switched off, a run that finishes has built the four
    fixed nodes and their two links and nothing else, and has loaded no
    image. *)
Theorem fetch_and_create_no_channel (cfg : settings) (w w' : world) :
  ambientcg_use_color cfg = false ->
  ambientcg_use_metalness cfg = false ->
  ambientcg_use_roughness cfg = false ->
  ambientcg_use_normal cfg = false ->
  ambientcg_use_displacement cfg = false ->
  execute o cfg w = (FINISHED, w') ->
  exists m,
    materials w' = materials w ++ [m] /\
    nodes m = base_nodes /\
    links m = links (base_material (ambientcg_material_name cfg)) /\
    images w' = images w.
Proof.
  intros Hc Hme Hro Hno Hdi.
  assert (Hoff : forall ep outf a b c file,
            place_texture o cfg ep outf a b c file = ret tt).
  { intros. unfold place_texture.
    now rewrite Hc, Hme, Hro, Hno, Hdi, !andb_false_r. }
  assert (Hloop : forall ep outf a b c l (s : building),
            for_each l (place_texture o cfg ep outf a b c) s = (Ret tt, s)).
  { intros. induction l as [|x l IH]; [reflexivity|].
    cbn [for_each]. unfold bind. now rewrite Hoff. }
  unfold execute.
  destruct (obtain o cfg w) as [[[[ep outf]|]|what] w1] eqn:Hob;
    try discriminate.
  destruct (obtain_blend _ _ _ _ _ Hob) as (Hm1 & Hi1 & _).
  rewrite build_start. unfold build_textures, bind.
  destruct (in_world (listdir o ep) _) as [[listing|what] s1] eqn:Hls;
    [|destruct s1; discriminate].
  apply listdir_returns in Hls as (-> & _ & _).
  rewrite Hloop, Hme, Hro. cbn [negb].
  unfold on_material, modify, ret.
  destruct (ambientcg_use_backface_culling cfg); cbn; intros [= <-]; cbn;
    eexists; (split_and!; [rewrite Hm1; reflexivity|reflexivity..|exact Hi1]).
Qed.

End GraphMore.

Section GraphOffline.
Import Host Graph.

(** X18: A cached material needs no network: when the extraction folder is
    there, the whole run is the same whatever the catalogue serves. *)
Theorem fetch_and_create_cached_offline (o1 o2 : oracle) (cfg : settings)
    (w : world) :
  relpath o1 = relpath o2 -> abspath o1 = abspath o2 ->
  resolve o1 = resolve o2 -> scan_order o1 = scan_order o2 ->
  exists_ (extract_path_of cfg) w = true ->
  execute o1 cfg w = execute o2 cfg w.
Proof.
  destruct o1 as [rp1 ab1 rs1 rm1 so1], o2 as [rp2 ab2 rs2 rm2 so2].
  cbn [relpath abspath resolve scan_order].
  intros -> -> -> -> Hex.
  unfold execute. rewrite !obtain_unfold.
  destruct (make_folders cfg w) as [[[]|what] wb] eqn:Hmf; [|reflexivity].
  destruct (make_folders_spec _ _ _ _ Hmf) as (_ & _ & _ & Hmono & _).
  rewrite (Hmono _ Hex). reflexivity.
Qed.

End GraphOffline.

Section GraphMoreScenarios.
Import Host Graph.

Lemma fetch_and_create_cancelled_witness :
  materials (execute plain_host rock_settings blank_disk).2 = [].
Proof.
  destruct (fetch_and_create_cancelled plain_host rock_settings blank_disk
              (execute plain_host rock_settings blank_disk).2
              ltac:(vm_compute; reflexivity)) as (_ & Hm & _).
  exact Hm.
Defined.






Lemma fetch_and_create_cached_offline_witness :
  execute (catalogue id) rock_settings rock_cached
  = execute plain_host rock_settings rock_cached.
Proof.
  apply fetch_and_create_cached_offline; try reflexivity.
Defined.


(** The settings of the scenario with every channel switched off. *)
Definition bare_settings : settings :=
  {| cache_dir := "/cache"; ambientcg_material_name := "Rock035";
     ambientcg_resolution := "1K"; ambientcg_use_custom_folder := false;
     ambientcg_custom_folder := "";
     ambientcg_use_relative_paths := false;
     ambientcg_resize_multiplier := 1%float;
     ambientcg_interpolation := "Linear";
     ambientcg_use_color := false; ambientcg_use_metalness := false;
     ambientcg_use_roughness := false; ambientcg_use_normal := false;
     ambientcg_use_displacement := false;
     ambientcg_default_metallic := 0.5%float;
     ambientcg_default_roughness := 0.5%float;
     ambientcg_use_backface_culling := true |}.

Lemma fetch_and_create_no_channel_witness :
  exists m,
    materials (execute (catalogue id) bare_settings blank_disk).2 = [m] /\
    nodes m = base_nodes.
Proof.
  destruct (fetch_and_create_no_channel (catalogue id) bare_settings
              blank_disk (execute (catalogue id) bare_settings blank_disk).2
              eq_refl eq_refl eq_refl eq_refl eq_refl
              ltac:(vm_compute; reflexivity))
    as (m & Hm & Hn & _).
  exists m. split; [exact Hm|exact Hn].
Defined.

End GraphMoreScenarios.

(** * Facts about registration *)

Section RegistryFacts.
Import Host Registry.

Lemma filter_other (x : string) (l : list string) :
  x ∉ l -> filter (fun c => c <> x) l = l.
Proof.
  induction l as [|y l IH]; [reflexivity|].
  intros Hx. apply not_elem_of_cons in Hx as [Hne Hx].
  rewrite filter_cons_True by congruence. now rewrite IH.
Qed.

Lemma register_classes (l : list string) (r : registry) :
  NoDup l -> (forall c, c ∈ l -> c ∉ registered r) ->
  Graph.for_each l register_class r
  = (Ret tt, set_registered (fun x => x ++ l) r).
Proof.
  intros Hnd. revert r. induction Hnd as [|c l Hc Hnd IH]; intros r Hfree.
  - cbn. unfold ret, set_registered. rewrite app_nil_r. now destruct r.
  - cbn [Graph.for_each]. unfold bind, register_class.
    rewrite bool_decide_eq_false_2 by (apply Hfree, elem_of_cons; now left).
    rewrite IH.
    + unfold set_registered. cbn. now rewrite <- app_assoc.
    + intros c' Hc'. cbn. rewrite elem_of_app, list_elem_of_singleton.
      intros [Hin| ->]; [|contradiction].
      revert Hin. apply Hfree, elem_of_cons. now right.
Qed.

Lemma unregister_classes (l c0 : list string) (r : registry) :
  NoDup l -> registered r = c0 ++ l -> (forall c, c ∈ l -> c ∉ c0) ->
  Graph.for_each (rev l) unregister_class r
  = (Ret tt, set_registered (fun _ => c0) r).
Proof.
  revert r. induction l as [|c l IH] using rev_ind; intros r Hnd Hr Hfree.
  - cbn. unfold ret, set_registered. rewrite app_nil_r in Hr.
    rewrite <- Hr. now destruct r.
  - rewrite rev_app_distr. cbn [rev app Graph.for_each].
    apply NoDup_app in Hnd as (Hnd & Hc & _).
    unfold bind, unregister_class. rewrite Hr.
    rewrite bool_decide_eq_true_2.
    2:{ rewrite !elem_of_app, list_elem_of_singleton. auto. }
    rewrite IH; [reflexivity|exact Hnd| |].
    + cbn. rewrite Hr, !filter_app.
      rewrite filter_other.
      2:{ apply Hfree, elem_of_app. right. now apply list_elem_of_singleton. }
      rewrite filter_other.
      2:{ intros Hin. apply (Hc c Hin). now apply list_elem_of_singleton. }
      rewrite filter_cons_False by (intros H; now apply H).
      rewrite filter_nil. now rewrite app_nil_r.
    + intros c' Hc'. apply Hfree, elem_of_app. now left.
Qed.

(** Equal sets, by their elements. *)
Ltac by_elements :=
  apply set_eq; intros ?;
  rewrite ?list_to_set_cons, ?list_to_set_nil;
  rewrite ?elem_of_difference, ?elem_of_union, ?elem_of_singleton,
    ?elem_of_empty;
  rewrite ?elem_of_difference, ?elem_of_union, ?elem_of_singleton,
    ?elem_of_empty;
  tauto.

Lemma define_all (l : list string) (r : registry) :
  Graph.for_each l define_scene r
  = (Ret tt, set_scene (fun s => list_to_set l ∪ s) r).
Proof.
  revert r. induction l as [|n l IH]; intros r.
  - cbn [Graph.for_each]. unfold ret, set_scene.
    replace (list_to_set [] ∪ scene r) with (scene r) by by_elements.
    now destruct r.
  - cbn [Graph.for_each]. unfold bind, define_scene, modify. rewrite IH.
    unfold set_scene. cbn [scene]. do 2 f_equal. by_elements.
Qed.

Lemma del_all (l : list string) (r : registry) :
  NoDup l -> (forall n, n ∈ l -> n ∈ scene r) ->
  Graph.for_each l del_scene r
  = (Ret tt, set_scene (fun s => s ∖ list_to_set l) r).
Proof.
  intros Hnd. revert r. induction Hnd as [|n l Hn Hnd IH]; intros r Hin.
  - cbn [Graph.for_each]. unfold ret, set_scene.
    replace (scene r ∖ list_to_set []) with (scene r) by by_elements.
    now destruct r.
  - cbn [Graph.for_each]. unfold bind, del_scene.
    rewrite bool_decide_eq_true_2 by (apply Hin, elem_of_cons; now left).
    rewrite IH.
    + unfold set_scene. cbn [scene]. do 2 f_equal. by_elements.
    + intros n' Hn'. cbn [scene set_scene]. apply elem_of_difference. split.
      * apply Hin, elem_of_cons. now right.
      * intros ->%elem_of_singleton. contradiction.
Qed.

(** The two lists of scene properties name the same properties, each once. *)
Lemma defined_deleted :
  NoDup defined /\ NoDup deleted /\
  Forall (fun n => n ∈ deleted) defined /\
  Forall (fun n => n ∈ defined) deleted.
Proof.
  split_and!; apply (bool_decide_unpack _); vm_compute; exact I.
Qed.

Lemma classes_NoDup : NoDup classes.
Proof. apply (bool_decide_unpack _). vm_compute. exact I. Qed.

(** The host after [register]. *)
Definition registered_host (previews_module : bool) (r : registry) : registry :=
  {| registered := registered r ++ classes;
     scene := list_to_set defined ∪ scene r;
     window_manager := {[ "ambientcg_material_preview" ]} ∪ window_manager r;
     preview_collections :=
       if previews_module
       then <["materials" := fresh (live r)]> (preview_collections r)
       else preview_collections r;
     PREVIEW_AVAILABLE := previews_module;
     live := if previews_module then {[ fresh (live r) ]} ∪ live r
             else live r |}.

Lemma register_runs (previews_module : bool) (r : registry) :
  (forall c, c ∈ classes -> c ∉ registered r) ->
  register previews_module r = (Ret tt, registered_host previews_module r).
Proof.
  intros Hc. unfold register, bind.
  rewrite (register_classes _ _ classes_NoDup Hc), define_all.
  unfold define_window_manager, modify, catch, bind.
  destruct previews_module; reflexivity.
Qed.

(** X19: The add-on cleans up after itself.  On a host that has none of its
    classes and properties, [register] goes through, and [unregister] after
    it goes through as well: every property that was defined is deleted, and
    the classes, the scene and window-manager properties and the preview
    collections of the host are what they were before. *)
Theorem register_unregister (previews_module : bool) (r : registry) :
  (forall c, c ∈ classes -> c ∉ registered r) ->
  (forall n, n ∈ defined -> n ∉ scene r) ->
  "ambientcg_material_preview" ∉ window_manager r ->
  preview_collections r = ∅ ->
  exists r1 r2,
    register previews_module r = (Ret tt, r1) /\
    registered r1 = registered r ++ classes /\
    (forall n, n ∈ defined -> n ∈ scene r1) /\
    PREVIEW_AVAILABLE r1 = previews_module /\
    unregister r1 = (Ret tt, r2) /\
    registered r2 = registered r /\ scene r2 = scene r /\
    window_manager r2 = window_manager r /\
    preview_collections r2 = ∅ /\ live r2 = live r.
Proof.
  intros Hc Hs Hw Hp.
  destruct defined_deleted as (Hnd1 & Hnd2 & Hsub1 & Hsub2).
  rewrite Forall_forall in Hsub1, Hsub2.
  exists (registered_host previews_module r).
  assert (Hprev : exists ra,
            (if previews_module
             then catch (Graph.for_each
                           (map_to_list (preview_collections
                              (registered_host previews_module r))).*2
                           previews_remove)
                        (fun _ => ret tt)
             else ret tt) (registered_host previews_module r) = (Ret tt, ra) /\
            registered ra = registered r ++ classes /\
            scene ra = list_to_set defined ∪ scene r /\
            window_manager ra
            = {[ "ambientcg_material_preview" ]} ∪ window_manager r /\
            live ra = live r).
  { destruct previews_module.
    - cbn [registered_host preview_collections].
      rewrite Hp, insert_empty, map_to_list_singleton.
      cbn [fmap list_fmap snd Graph.for_each]. unfold catch, bind.
      unfold previews_remove at 1. cbn [live].
      rewrite bool_decide_eq_true_2
        by (apply elem_of_union; left; now apply elem_of_singleton).
      eexists. split; [reflexivity|]. cbn. split_and!; try reflexivity.
      pose proof (is_fresh (live r)) as Hfresh.
      apply set_eq. intros x.
      rewrite elem_of_difference, elem_of_union, elem_of_singleton.
      split; [tauto|]. intros Hx. split; [now right|]. now intros ->.
    - eexists. split; [reflexivity|]. cbn. auto. }
  destruct Hprev as (ra & Hra & Hra1 & Hra2 & Hra3 & Hra4).
  eexists. split; [now apply register_runs|].
  split; [reflexivity|]. split.
  { intros n Hn. cbn [scene registered_host]. apply elem_of_union. left.
    now apply elem_of_list_to_set. }
  split; [reflexivity|].
  unfold unregister, bind. unfold get at 1.
  cbn [PREVIEW_AVAILABLE registered_host]. fold (registered_host previews_module r).
  rewrite Hra. unfold modify at 1.
  erewrite (unregister_classes classes (registered r));
    [|exact classes_NoDup|exact Hra1|exact Hc].
  rewrite del_all; [|exact Hnd2|].
  2:{ intros n Hn. cbn [scene set_registered set_preview_collections].
      rewrite Hra2. apply elem_of_union. left.
      apply elem_of_list_to_set. now apply Hsub2. }
  unfold del_window_manager.
  cbn [window_manager set_scene set_registered set_preview_collections].
  rewrite Hra3.
  rewrite bool_decide_eq_true_2
    by (apply elem_of_union; left; now apply elem_of_singleton).
  split; [reflexivity|].
  cbn [registered scene window_manager preview_collections live
       set_window_manager set_scene set_registered set_preview_collections].
  split_and!; try reflexivity.
  - rewrite Hra2. apply set_eq. intros x.
    rewrite elem_of_difference, elem_of_union, !elem_of_list_to_set.
    split; [intros [[Hx|Hx] Hn]; [exfalso; auto|exact Hx]|].
    intros Hx. split; [now right|]. intros Hd. exact (Hs _ (Hsub2 _ Hd) Hx).
  - rewrite Hra3. apply set_eq. intros x.
    rewrite elem_of_difference, elem_of_union, elem_of_singleton.
    split; [tauto|]. intros Hx. split; [now right|]. now intros ->.
  - exact Hra4.
Qed.

End RegistryFacts.

Section RegistryScenarios.
Import Registry.

(** A host without the add-on. *)
Definition bare_host : registry :=
  {| registered := ["OBJECT_OT_other"]; scene := {[ "frame_current" ]};
     window_manager := ∅; preview_collections := ∅;
     PREVIEW_AVAILABLE := false; live := {[ 0%nat ]} |}.

Lemma register_unregister_witness :
  exists r1 r2,
    register true bare_host = (Host.Ret tt, r1) /\
    unregister r1 = (Host.Ret tt, r2) /\
    scene r2 = {[ "frame_current" ]}.
Proof.
  destruct (register_unregister true bare_host)
    as (r1 & r2 & H1 & _ & _ & _ & H2 & _ & Hs & _).
  - intros c Hc. apply (bool_decide_unpack _). revert c Hc.
    apply Forall_forall. apply (bool_decide_unpack _). vm_compute. exact I.
  - intros n Hn. apply (bool_decide_unpack _). revert n Hn.
    apply Forall_forall. apply (bool_decide_unpack _). vm_compute. exact I.
  - apply not_elem_of_empty.
  - reflexivity.
  - exists r1, r2. split_and!; assumption.
Defined.

End RegistryScenarios.

(** * Facts about the installer *)

Section BuildOrder.
Import Build.

Lemma compare_refl (a : string) : String.compare a a = Eq.
Proof. exact (proj2 (OrderedTypeEx.String_as_OT.cmp_eq a a) eq_refl). Qed.

Lemma str_le_refl (a : string) : str_le a a.
Proof. unfold str_le, String.leb. now rewrite compare_refl. Qed.

Lemma str_le_cases (a b : string) :
  str_le a b <-> a = b \/ OrderedTypeEx.String_as_OT.lt a b.
Proof.
  unfold str_le, String.leb.
  destruct (String.compare a b) eqn:E.
  - apply OrderedTypeEx.String_as_OT.cmp_eq in E. tauto.
  - apply OrderedTypeEx.String_as_OT.cmp_lt in E. tauto.
  - split; [discriminate|]. intros [->|H].
    + rewrite compare_refl in E. discriminate.
    + apply OrderedTypeEx.String_as_OT.cmp_lt in H.
      unfold OrderedTypeEx.String_as_OT.cmp in H. congruence.
Qed.

Global Instance str_le_trans : Transitive str_le.
Proof.
  intros a b c. rewrite !str_le_cases.
  intros [->|H1] [->|H2]; auto.
  right. exact (OrderedTypeEx.String_as_OT.lt_trans _ _ _ H1 H2).
Qed.

Global Instance str_le_total : Total str_le.
Proof. intros a b. apply String.leb_total. Qed.

(** The last element of [sorted(l)] is the greatest element of [l]; there is
    none only when [l] is empty. *)
Lemma last_sorted (l : list string) :
  match last (sorted l) with
  | Some v => v ∈ l /\ forall n, n ∈ l -> str_le n v
  | None => l = []
  end.
Proof.
  pose proof (merge_sort_Permutation str_le l) as Hp.
  pose proof (StronglySorted_merge_sort str_le l) as Hs.
  fold (sorted l) in Hp, Hs.
  destruct (last (sorted l)) as [v|] eqn:Hl.
  - apply last_Some in Hl as [l' Hl]. rewrite Hl in Hs, Hp.
    split.
    + rewrite <- Hp. apply elem_of_app. right. now apply list_elem_of_singleton.
    + intros n Hn. rewrite <- Hp in Hn.
      apply elem_of_app in Hn as [Hn|Hn].
      * eapply StronglySorted_app_1_elem_of; [exact Hs|exact Hn|].
        now apply list_elem_of_singleton.
      * apply list_elem_of_singleton in Hn as ->. apply str_le_refl.
  - apply last_None in Hl. rewrite Hl in Hp.
    now apply Permutation_nil_l in Hp.
Qed.

End BuildOrder.

Section BuildFacts.
Import Host Build.
Variable o : oracle.

(** The version folders the installer chooses from: the directories directly
    in the configuration folder, by name. *)
Definition versions (home : string) (w : world) : list string :=
  directories (blender_config home) (entries (blender_config home) w) w.

(** Looking for the add-on folder changes nothing. *)
Lemma get_blender_addon_path_pure (home : string) (w w' : world)
    (r : outcome string) :
  get_blender_addon_path o home w = (r, w') -> w' = w.
Proof.
  unfold get_blender_addon_path, bind, get, ret, raise, listdir.
  destruct (negb _).
  - destruct (bool_decide _); [|now intros [= _ <-]].
    destruct (last _); now intros [= _ <-].
  - now intros [= _ <-].
Qed.

(** X20: When the folder of the pinned version is missing, the installer
    takes the directory of the configuration folder whose name is greatest
    in string order (so [4.9] wins over [4.10]), whatever the order of the
    scan, and in it the extensions folder when there is one and the scripts
    folder otherwise.  It raises [RuntimeError] exactly when the
    configuration folder holds no directory. *)
Theorem get_blender_addon_path_newest (home : string) (w w' : world)
    (r : outcome string) :
  (forall l, scan_order o l ≡ₚ l) ->
  exists_ (Path.join (blender_config home) BLENDER_VERSION) w = false ->
  blender_config home ∈ dirs w ->
  get_blender_addon_path o home w = (r, w') ->
  match r with
  | Ret p =>
    exists v,
      v ∈ versions home w /\
      (forall n, n ∈ versions home w -> String.leb n v = true) /\
      let version_path := Path.join (blender_config home) v in
      p = if exists_ (Path.join version_path "extensions") w
          then Path.join (Path.join version_path "extensions") "user_default"
          else Path.join (Path.join version_path "scripts") "addons"
  | Exc what => what = "RuntimeError" /\ versions home w = []
  end.
Proof.
  intros Hperm Hpin Hdir.
  assert (Hv : directories (blender_config home)
                 (scan_order o (entries (blender_config home) w)) w
               ≡ₚ versions home w).
  { unfold versions, directories. now rewrite Hperm. }
  unfold get_blender_addon_path, bind, get, listdir.
  rewrite Hpin. cbn [negb]. rewrite (bool_decide_eq_true_2 _ Hdir).
  pose proof (last_sorted (directories (blender_config home)
                (scan_order o (entries (blender_config home) w)) w)) as Hlast.
  destruct (last _) as [v|].
  - unfold ret. intros [= <- _]. destruct Hlast as [Hin Hmax].
    exists v. split_and!.
    + now rewrite <- Hv.
    + intros n Hn. apply Hmax. now rewrite Hv.
    + reflexivity.
  - unfold raise. intros [= <- _]. split; [reflexivity|].
    rewrite Hlast in Hv. now apply Permutation_nil_l in Hv.
Qed.

(** ** The installation *)

Lemma join_inj (dir a b : string) : Path.join dir a = Path.join dir b -> a = b.
Proof.
  unfold Path.join. intros H. apply (f_equal Path.chars) in H.
  rewrite !chars_app in H. do 2 apply app_inv_head in H.
  now apply chars_inj.
Qed.

Lemma below_join (dir name : string) :
  name <> "" -> Path.below dir (Path.join dir name) = true.
Proof.
  intros Hn. unfold Path.below, Path.join.
  rewrite !chars_app, andb_true_iff, !bool_decide_eq_true. split.
  - rewrite app_assoc. now apply prefix_app_r.
  - rewrite !length_app. destruct name; [congruence|]. cbn. lia.
Qed.

(** What a call of [rmtree] that returns has done. *)
Lemma rmtree_returns (p : string) (w w' : world) (u : unit) :
  rmtree p w = (Ret u, w') ->
  p ∈ dirs w /\
  (forall q, files w' !! q = if within p q then None else files w !! q) /\
  (forall q, q ∈ dirs w' <-> q ∈ dirs w /\ within p q = false) /\
  locked w' = locked w.
Proof.
  unfold rmtree. destruct (bool_decide (p ∈ dirs w)) eqn:Hp; [|discriminate].
  apply bool_decide_eq_true in Hp. cbn [negb].
  destruct (bool_decide _); [discriminate|]. intros [= _ <-].
  cbn [files dirs locked set_files set_dirs]. split_and!; auto.
  - intros q. destruct (within p q) eqn:Hq.
    + apply map_lookup_filter_None. right. intros x _. cbn. congruence.
    + destruct (files w !! q) as [x|] eqn:Hx.
      * apply map_lookup_filter_Some. auto.
      * apply map_lookup_filter_None. auto.
  - intros q. rewrite elem_of_filter. tauto.
Qed.

(** What a call of [copy2] that returns has done. *)
Lemma copy2_returns (src dst : string) (w w' : world) (u : unit) :
  copy2 src dst w = (Ret u, w') ->
  exists f, files w !! src = Some f /\
            files w' = <[dst := f]> (files w) /\ dirs w' = dirs w /\
            locked w' = locked w.
Proof.
  unfold copy2. destruct (files w !! src) as [f|]; [|discriminate].
  destruct (_ || _); [discriminate|]. intros [= _ <-]. eauto.
Qed.

(** The body of the loop over the file names. *)
Definition install_file (project_root addon_path file_name : string)
    : M console unit :=
  let source := Path.join project_root file_name in
  s <- get ;;
  if exists_ source s.1 then
    print ("Copying " +:+ file_name) ;;;
    on_disk (copy2 source (Path.join addon_path file_name))
  else ret tt.

Lemma install_file_returns (root addon f : string) (s s' : console)
    (u : unit) :
  install_file root addon f s = (Ret u, s') ->
  dirs s'.1 = dirs s.1 /\ locked s'.1 = locked s.1 /\
  files s'.1
  = match files s.1 !! Path.join root f with
    | Some x => <[Path.join addon f := x]> (files s.1)
    | None => files s.1
    end /\
  s'.2 = s.2 ++ (if exists_ (Path.join root f) s.1
                 then ["Copying " +:+ f] else []).
Proof.
  unfold install_file. intros H.
  split_run H as s0 s1 Hget. end_run Hget.
  destruct (exists_ (Path.join root f) s.1) eqn:Hex.
  - split_run H as u1 s2 Hpr. unfold print in Hpr. end_run Hpr.
    revert H. unfold on_disk. cbn [fst snd].
    destruct (copy2 _ _ s.1) as [[[]|what] w'] eqn:Hc; [|discriminate].
    intros [= _ <-]. cbn [fst snd].
    destruct (copy2_returns _ _ _ _ _ Hc) as (x & Hx & Hf & Hd & Hl).
    rewrite Hx. auto.
  - end_run H. rewrite app_nil_r.
    unfold exists_ in Hex. apply orb_false_iff in Hex as [Hex _].
    apply bool_decide_eq_false in Hex. apply eq_None_not_Some in Hex.
    rewrite Hex. auto.
Qed.

(** X21: An installation that goes through is a fresh one.  When the sources
    are not inside the add-on folder, the folder exists afterwards and holds
    a copy of each of the two files that the project folder has, and no
    other file: whatever an earlier installation left there is gone.
    Nothing outside the add-on folder is touched. *)
Theorem main_installs_fresh (home root base : string) (s s' : console) :
  get_blender_addon_path o home s.1 = (Ret base, s.1) ->
  main o home root s = (Ret tt, s') ->
  let addon := Path.join base "ambientcg_material_importer" in
  (forall f, f ∈ file_names -> within addon (Path.join root f) = false) ->
  (addon ∉ dirs s.1 ->
   forall q, Path.below addon q = true -> files s.1 !! q = None) ->
  addon ∈ dirs s'.1 /\
  (forall f, f ∈ file_names ->
     files s'.1 !! Path.join addon f = files s.1 !! Path.join root f) /\
  (forall q, Path.below addon q = true ->
     (forall f, f ∈ file_names -> q <> Path.join addon f) ->
     files s'.1 !! q = None) /\
  (forall q, within addon q = false -> files s'.1 !! q = files s.1 !! q).
Proof.
  intros Hbase. unfold main. intros H.
  split_run H as base' s1 Hb.
  assert (Hb' : base' = base /\ s1 = s).
  { revert Hb. unfold on_disk. rewrite Hbase. cbn [fst snd].
    destruct s as [w out]. now intros [= -> <-]. }
  destruct Hb' as [-> ->].
  cbv zeta. set (addon := Path.join base "ambientcg_material_importer") in *.
  intros Hsrc Hwf.
  split_run H as u1 s2 Hpr. unfold print in Hpr. end_run Hpr.
  split_run H as s0 s3 Hget. end_run Hget. cbn [fst snd] in H.
  split_run H as u2 s4 Hrm.
  (* The folder is empty once it is cleared. *)
  assert (Hclear : (forall q, files s4.1 !! q
                      = if within addon q then None else files s.1 !! q) /\
                   dirs s4.1 ⊆ dirs s.1 /\ locked s4.1 = locked s.1).
  { destruct (exists_ addon s.1) eqn:Hex.
    - revert Hrm. unfold on_disk. cbn [fst snd].
      destruct (rmtree addon s.1) as [[[]|what] w'] eqn:Hr; [|discriminate].
      intros [= _ <-]. cbn [fst snd].
      destruct (rmtree_returns _ _ _ _ Hr) as (_ & Hf & Hd & Hl).
      split_and!; [exact Hf| |exact Hl].
      intros q Hq. now apply Hd in Hq.
    - end_run Hrm. cbn [fst snd]. split_and!; [|reflexivity..].
      intros q. destruct (within addon q) eqn:Hq; [|reflexivity].
      unfold exists_ in Hex. apply orb_false_iff in Hex as [Hex1 Hex2].
      apply bool_decide_eq_false in Hex1, Hex2.
      apply eq_None_not_Some in Hex1.
      unfold within in Hq. apply orb_true_iff in Hq as [Hq|Hq].
      + apply String.eqb_eq in Hq as ->. exact Hex1.
      + now apply Hwf. }
  destruct Hclear as (Hf4 & Hd4 & Hl4).
  split_run H as u3 s5 Hmk.
  assert (Hmade : files s5.1 = files s4.1 /\ addon ∈ dirs s5.1).
  { revert Hmk. unfold on_disk.
    destruct (mkdir addon s4.1) as [[[]|what] w'] eqn:Hm; [|discriminate].
    intros [= _ <-]. cbn [fst snd].
    destruct (mkdir_returns _ _ _ _ Hm) as (Hf & _ & Hd & _). auto. }
  destruct Hmade as [Hf5 Hd5].
  split_run H as u4 s6 Hloop. unfold print in H. end_run H. cbn [fst snd].
  unfold file_names in Hloop. cbn [Graph.for_each] in Hloop.
  split_run Hloop as u5 s7 Hc1. split_run Hloop as u6 s8 Hc2. end_run Hloop.
  fold (install_file root addon "__init__.py") in Hc1.
  fold (install_file root addon "blender_manifest.toml") in Hc2.
  destruct (install_file_returns _ _ _ _ _ _ Hc1) as (Hd7 & _ & Hf7 & _).
  destruct (install_file_returns _ _ _ _ _ _ Hc2) as (Hd8 & _ & Hf8 & _).
  assert (Hs1 : within addon (Path.join root "__init__.py") = false)
    by (apply Hsrc; unfold file_names; apply elem_of_cons; now left).
  assert (Hs2 : within addon (Path.join root "blender_manifest.toml") = false).
  { apply Hsrc. unfold file_names. apply elem_of_cons. right.
    now apply list_elem_of_singleton. }
  assert (Hin1 : within addon (Path.join addon "__init__.py") = true).
  { unfold within. rewrite below_join by discriminate. apply orb_true_r. }
  assert (Hin2 : within addon (Path.join addon "blender_manifest.toml") = true).
  { unfold within. rewrite below_join by discriminate. apply orb_true_r. }
  assert (Hne : Path.join addon "__init__.py"
                <> Path.join addon "blender_manifest.toml").
  { intros E. apply join_inj in E. discriminate. }
  (* The sources as the loop sees them. *)
  assert (Hsrc1 : files s5.1 !! Path.join root "__init__.py"
                  = files s.1 !! Path.join root "__init__.py").
  { now rewrite Hf5, Hf4, Hs1. }
  assert (Hsrc2 : files s7.1 !! Path.join root "blender_manifest.toml"
                  = files s.1 !! Path.join root "blender_manifest.toml").
  { rewrite Hf7. destruct (files s5.1 !! Path.join root "__init__.py").
    - rewrite lookup_insert_ne by (intros E; rewrite <- E in Hs2; congruence).
      now rewrite Hf5, Hf4, Hs2.
    - now rewrite Hf5, Hf4, Hs2. }
  rewrite Hsrc1 in Hf7. rewrite Hsrc2 in Hf8.
  assert (H7 : forall q,
            files s7.1 !! q
            = if decide (q = Path.join addon "__init__.py")
              then files s.1 !! Path.join root "__init__.py"
              else if within addon q then None else files s.1 !! q).
  { intros q. rewrite Hf7.
    destruct (files s.1 !! Path.join root "__init__.py") as [x|] eqn:Hx;
      destruct (decide (q = Path.join addon "__init__.py")) as [->|Hq].
    - apply lookup_insert_eq.
    - rewrite lookup_insert_ne by congruence. now rewrite Hf5, Hf4.
    - now rewrite Hf5, Hf4, Hin1.
    - now rewrite Hf5, Hf4. }
  assert (Hlook : forall q,
            files s8.1 !! q
            = if decide (q = Path.join addon "blender_manifest.toml")
              then files s.1 !! Path.join root "blender_manifest.toml"
              else if decide (q = Path.join addon "__init__.py")
              then files s.1 !! Path.join root "__init__.py"
              else if within addon q then None else files s.1 !! q).
  { intros q. rewrite Hf8.
    destruct (files s.1 !! Path.join root "blender_manifest.toml")
      as [y|] eqn:Hy;
      destruct (decide (q = Path.join addon "blender_manifest.toml"))
        as [->|Hq].
    - apply lookup_insert_eq.
    - rewrite lookup_insert_ne by congruence. apply H7.
    - rewrite H7. rewrite decide_False by congruence. now rewrite Hin2.
    - apply H7. }
  split_and!.
  - now rewrite Hd8, Hd7.
  - intros f Hf. unfold file_names in Hf.
    apply elem_of_cons in Hf as [->|Hf];
      [|apply list_elem_of_singleton in Hf as ->]; rewrite Hlook.
    + rewrite decide_False by exact Hne. now rewrite decide_True.
    + now rewrite decide_True.
  - intros q Hq Hother. rewrite Hlook.
    rewrite decide_False.
    2:{ apply Hother. unfold file_names. apply elem_of_cons. right.
        now apply list_elem_of_singleton. }
    rewrite decide_False.
    2:{ apply Hother. unfold file_names. apply elem_of_cons. now left. }
    unfold within. rewrite Hq. now rewrite orb_true_r.
  - intros q Hq. rewrite Hlook.
    rewrite decide_False by (intros ->; congruence).
    rewrite decide_False by (intros ->; congruence).
    now rewrite Hq.
Qed.

End BuildFacts.

Section BuildScenarios.
Import Host Build.

(** A home folder with the configuration folders of Blender 4.9 and 4.10,
    an add-on folder left by an earlier installation, and the project. *)
Definition blender_disk : world :=
  {| files := {[ "/src/__init__.py" := Plain (Blob 1);
                 "/src/blender_manifest.toml" := Plain (Blob 2);
                 "/home/u/.config/blender/4.9/scripts/addons/ambientcg_material_importer/old.py"
                   := Plain (Blob 3);
                 "/home/u/notes.txt" := Plain (Blob 4) ]};
     dirs := {[ "/src"; "/home/u"; "/home/u/.config";
                "/home/u/.config/blender";
                "/home/u/.config/blender/4.9";
                "/home/u/.config/blender/4.10";
                "/home/u/.config/blender/4.9/scripts";
                "/home/u/.config/blender/4.9/scripts/addons";
                "/home/u/.config/blender/4.9/scripts/addons/ambientcg_material_importer" ]};
     locked := ∅; images := []; materials := []; blend_filepath := "";
     trace := []; reports := [] |}.

(** The folder of 4.9 is taken, not that of 4.10. *)
Example newest_by_string_order :
  (get_blender_addon_path plain_host "/home/u" blender_disk).1
  = Ret "/home/u/.config/blender/4.9/scripts/addons".
Proof. vm_compute. reflexivity. Qed.

Lemma get_blender_addon_path_newest_witness :
  exists v, v ∈ versions "/home/u" blender_disk /\ String.leb "4.10" v = true.
Proof.
  destruct (get_blender_addon_path_newest plain_host "/home/u" blender_disk
              blender_disk
              (Ret "/home/u/.config/blender/4.9/scripts/addons")
              scan_in_place ltac:(vm_compute; reflexivity)
              ltac:(apply (bool_decide_unpack _); vm_compute; exact I)
              ltac:(vm_compute; reflexivity))
    as (v & Hin & Hmax & _).
  exists v. split; [exact Hin|]. apply Hmax.
  apply (bool_decide_unpack _). vm_compute. exact I.
Defined.

(** The disk and the output after the installer has run. *)
Definition installed : console :=
  Eval vm_compute in (main plain_host "/home/u" "/src" (blender_disk, [])).2.

Lemma main_installs_fresh_witness :
  files installed.1
    !! "/home/u/.config/blender/4.9/scripts/addons/ambientcg_material_importer/__init__.py"
  = Some (Plain (Blob 1)) /\
  files installed.1
    !! "/home/u/.config/blender/4.9/scripts/addons/ambientcg_material_importer/old.py"
  = None.
Proof.
  destruct (main_installs_fresh plain_host "/home/u" "/src"
              "/home/u/.config/blender/4.9/scripts/addons"
              (blender_disk, []) installed
              ltac:(vm_compute; reflexivity) ltac:(vm_compute; reflexivity))
    as (_ & Hcopy & Hstale & _).
  - intros f [->|Hf]%elem_of_cons;
      [|apply list_elem_of_singleton in Hf as ->]; vm_compute; reflexivity.
  - intros Hno. exfalso. apply Hno.
    apply (bool_decide_unpack _). vm_compute. exact I.
  - split.
    + refine (eq_trans (Hcopy "__init__.py" _) _);
        [apply elem_of_cons; now left|vm_compute; reflexivity].
    + apply Hstale; [vm_compute; reflexivity|].
      intros f [->|Hf]%elem_of_cons;
        [|apply list_elem_of_singleton in Hf as ->]; discriminate.
Defined.

End BuildScenarios.

(** * The nodes of the material and the images they load *)

Section GraphNodes.
Import Host Graph.
Variable o : oracle.














End GraphNodes.

Section GraphNodesScenarios.
Import Host Graph.


End GraphNodesScenarios.

(** * Textures that share an output *)

Section TextureSharing.
Import Host Texture.

(** X23: The name of the output leaves out everything of the source but its
    texture type (the text after the last underscore of the stem).  So two
    sources of the same type, processed for the same material name, folder
    and multiplier, share one output: once the first is processed, the call
    for the second returns the same path without reading, writing or
    renaming any file, whether or not the second source exists.  With a
    custom folder, the maps of another resolution of a material are not
    processed again. *)
Theorem process_texture_shares_output (o : oracle) (src1 src2 folder : string)
    (r : float) (rel : bool) (name : string) (w w1 : world) (p : string) :
  Path.last_token (Path.stem src2) = Path.last_token (Path.stem src1) ->
  process_texture o src1 folder r rel name w = (Ret p, w1) ->
  exists_ (Path.unused src2) w1 = false ->
  process_texture o src2 folder r rel name w1 = (Ret p, w1).
Proof.
  intros Htype H Hs2.
  destruct (process_texture_settled _ _ _ _ _ _ _ _ _ H) as (_ & Ho & Hex).
  destruct (process_texture_returns _ _ _ _ _ _ _ _ _ H)
    as (_ & _ & _ & _ & _ & _ & -> & Hb & _).
  assert (Hname : output_name src2 r name = output_name src1 r name)
    by (unfold output_name; now rewrite Htype).
  unfold process_texture, bind. rewrite Hname.
  rewrite (restore_nothing _ _ Hs2), (restore_nothing _ _ Ho).
  unfold get at 1. rewrite Hex.
  unfold get_texture_path, bind, get, ret. now rewrite Hb.
Qed.

Lemma process_texture_shares_output_witness :
  process_texture plain_host "/cache/Rock035_1K-PNG/Rock035_1K_Color.png"
    "/textures" 0.75%float false "Rock035" rock_processed
  = (Ret "/textures/Rock035_Color_0.75.png", rock_processed).
Proof.
  apply (process_texture_shares_output plain_host rock_source
           "/cache/Rock035_1K-PNG/Rock035_1K_Color.png" "/textures"
           0.75%float false "Rock035" rock_disk);
    vm_compute; reflexivity.
Defined.

End TextureSharing.

(** * Textures in use *)

Section UnusedLoaded.
Import Host Unused.
Variable o : Host.oracle.


End UnusedLoaded.

Section UnusedLoadedScenarios.
Import Host Unused.



End UnusedLoadedScenarios.
